(** * Request orchestration of the health-assistant front end

    A shallow embedding of the event handlers of
    [HealthcareChat.tsx], [MedicineAnalyzer.tsx],
    [MedicalImageAnalyzer.tsx], [DrugInteraction.tsx], [Login.tsx] and the
    medical term explainer, with the properties of the streaming session, the
    edit-and-regenerate flow and the validate-then-analyze pipeline.

    React component state is a record; a handler is a function from the
    state its closure saw to the state after its [setX] calls.  The
    remote AI client ([../lib/gemini]) is not part of the components: its
    replies are inputs of the model. *)

From Stdlib Require Import List NArith ZArith Bool String Ascii Lia.
From Stdlib Require Import DecimalString.
Import ListNotations.

Set Implicit Arguments.

(** ** JavaScript strings

    A JavaScript string is a sequence of UTF-16 code units; [+] is
    concatenation, [===] is equality of the sequences. *)
Module JS.

Definition code_unit := N.
Definition jsstring := list code_unit.

(** An ASCII literal of the source. *)
Definition str (s : string) : jsstring :=
  map N_of_ascii (list_ascii_of_string s).

Fixpoint eqb (a b : jsstring) : bool :=
  match a, b with
  | [], [] => true
  | x :: a', y :: b' => N.eqb x y && eqb a' b'
  | _, _ => false
  end.

(** ECMAScript WhiteSpace and LineTerminator code points, the ones
    [String.prototype.trim] strips. *)
Definition isWhiteSpace (c : code_unit) : bool :=
  ((9 <=? c) && (c <=? 13) || (c =? 32) || (c =? 160) || (c =? 5760)
   || (8192 <=? c) && (c <=? 8202) || (c =? 8232) || (c =? 8233)
   || (c =? 8239) || (c =? 8287) || (c =? 12288) || (c =? 65279))%N.

Fixpoint trimStart (s : jsstring) : jsstring :=
  match s with
  | [] => []
  | c :: s' => if isWhiteSpace c then trimStart s' else s
  end.

Definition trimEnd (s : jsstring) : jsstring := rev (trimStart (rev s)).

Definition trim (s : jsstring) : jsstring := trimEnd (trimStart s).

(** Truthiness of a string: the empty string is the only falsy one. *)
Definition truthy (s : jsstring) : bool :=
  match s with [] => false | _ :: _ => true end.

(** [s.startsWith(p)]. *)
Fixpoint startsWith (p s : jsstring) : bool :=
  match p, s with
  | [], _ => true
  | x :: p', y :: s' => N.eqb x y && startsWith p' s'
  | _ :: _, [] => false
  end.

(** [n.toString()] of an integral Number: decimal digits, a leading
    minus sign for negatives. *)
Definition toString (n : Z) : jsstring :=
  str (NilZero.string_of_int (Z.to_int n)).

(** [array.findIndex(p)]: the first index whose element satisfies [p];
    [None] stands for [-1]. *)
Fixpoint findIndex {A} (p : A -> bool) (l : list A) : option nat :=
  match l with
  | [] => None
  | x :: l' =>
      if p x then Some 0
      else match findIndex p l' with
           | Some i => Some (S i)
           | None => None
           end
  end.

(** [array.includes(x)] on an array of strings. *)
Definition includes (l : list jsstring) (x : jsstring) : bool :=
  existsb (eqb x) l.

(** [array[i] = v] for an index inside the array. *)
Fixpoint assign {A} (l : list A) (i : nat) (v : A) : list A :=
  match l, i with
  | [], _ => []
  | _ :: l', O => v :: l'
  | x :: l', S i' => x :: assign l' i' v
  end.

End JS.

Import JS.

(** ** HealthcareChat.tsx: the streaming session *)
Module HealthcareChat.

Inductive Role := user | assistant.

(** [interface Message]; [timestamp] is the Date's millisecond value and
    [isStreaming] is an optional field ([None] when absent). *)
Record Message := mkMessage {
  id : jsstring;
  role : Role;
  content : jsstring;
  timestamp : Z;
  isStreaming : option bool
}.

(** The [useState] cells of the component that the handlers read and
    write (the voice-input cells take no part in them). *)
Record State := mkState {
  messages : list Message;
  input : jsstring;
  isLoading : bool
}.

Definition setMessages (f : list Message -> list Message) (st : State) : State :=
  mkState (f (messages st)) (input st) (isLoading st).
Definition setInput (s : jsstring) (st : State) : State :=
  mkState (messages st) s (isLoading st).
Definition setIsLoading (b : bool) (st : State) : State :=
  mkState (messages st) (input st) b.

(** The arguments of one [streamAIResponse(text, history)] call. *)
Record StreamCall := mkStreamCall {
  userText : jsstring;
  conversationHistory : list Message
}.

(** The locals of an async handler suspended in its [for await] loop. *)
Record Task := mkTask {
  aiMessageId : jsstring;
  fullResponse : jsstring
}.

(** What a handler leaves behind when it reaches the streaming call. *)
Record Started := mkStarted {
  call : StreamCall;
  task : Task
}.

Definition errorText : jsstring :=
  [226; 353; 160; 239; 184]%N ++ str " Sorry, I encountered an error. Please try again.".

Definition cancelledText : jsstring :=
  [226; 338]%N ++ str " Response cancelled".

(** A test [msg.isStreaming ? _ : _]: only [true] is truthy. *)
Definition streamingNow (msg : Message) : bool :=
  match isStreaming msg with Some true => true | _ => false end.

(** [handleSubmit], up to the streaming call.  [now k] is the k-th clock
    reading the handler takes ([Date.now()] or [new Date()], in source
    order). *)
Definition handleSubmit (now : nat -> Z) (st : State) : State * option Started :=
  if negb (truthy (trim (input st))) || isLoading st then (st, None)
  else
    let userMessage :=
      mkMessage (toString (now 0%nat)) user (trim (input st)) (now 1%nat) None in
    let st1 := setMessages (fun prev => prev ++ [userMessage]) st in
    let st2 := setInput [] st1 in
    let st3 := setIsLoading true st2 in
    let aiMessageId := toString (now 2%nat + 1) in
    let aiMessage :=
      mkMessage aiMessageId assistant [] (now 3%nat) (Some true) in
    let st4 := setMessages (fun prev => prev ++ [aiMessage]) st3 in
    (st4, Some (mkStarted (mkStreamCall (content userMessage) (messages st))
                          (mkTask aiMessageId []))).

(** One turn of the [for await] loop: a chunk has arrived. *)
Definition onChunk (chunk : jsstring) (t : Task) (st : State) : State * Task :=
  let fullResponse' := fullResponse t ++ chunk in
  (setMessages
     (fun prev =>
        map (fun msg =>
               if eqb (id msg) (aiMessageId t)
               then mkMessage (id msg) (role msg) fullResponse' (timestamp msg) (Some true)
               else msg) prev) st,
   mkTask (aiMessageId t) fullResponse').

(** The chunk sequence ended: the code after the loop, then [finally]. *)
Definition onEnd (t : Task) (st : State) : State :=
  let st1 :=
    setMessages
      (fun prev =>
         map (fun msg =>
                if eqb (id msg) (aiMessageId t)
                then mkMessage (id msg) (role msg) (content msg) (timestamp msg) (Some false)
                else msg) prev) st in
  setIsLoading false st1.

(** The streaming call rejected: the [catch] block, then [finally]. *)
Definition onThrow (now : nat -> Z) (t : Task) (st : State) : State :=
  let st1 :=
    setMessages
      (fun prev => filter (fun msg => negb (eqb (id msg) (aiMessageId t))) prev) st in
  let errorMessage :=
    mkMessage (toString (now 0%nat)) assistant errorText (now 1%nat) None in
  let st2 := setMessages (fun prev => prev ++ [errorMessage]) st1 in
  setIsLoading false st2.

(** [handleCancel]; [cancelCurrentRequest()] signals the transport and
    touches no component state. *)
Definition handleCancel (st : State) : State :=
  let st1 := setIsLoading false st in
  setMessages
    (fun prev =>
       map (fun msg =>
              if streamingNow msg
              then mkMessage (id msg) (role msg)
                     (if truthy (content msg) then content msg else cancelledText)
                     (timestamp msg) (Some false)
              else msg) prev) st1.

(** [handleSaveEditedMessage], up to the streaming call.  The handler is
    rebuilt on every change of [messages], so the [messages] of its
    closure is the transcript of the state it is called in. *)
Definition handleSaveEditedMessage (now : nat -> Z)
    (messageId newContent : jsstring) (st : State) : State * Started :=
  let st1 :=
    setMessages
      (fun prev =>
         match findIndex (fun msg => eqb (id msg) messageId) prev with
         | None => prev
         | Some messageIndex =>
             let updatedMessages := firstn (messageIndex + 1) prev in
             match nth_error updatedMessages messageIndex with
             | Some old =>
                 assign updatedMessages messageIndex
                   (mkMessage (id old) (role old) newContent (now 0%nat) (isStreaming old))
             | None => updatedMessages
             end
         end) st in
  let st2 := setIsLoading true st1 in
  let aiMessageId := toString (now 1%nat) in
  let aiMessage := mkMessage aiMessageId assistant [] (now 2%nat) (Some true) in
  let st3 := setMessages (fun prev => prev ++ [aiMessage]) st2 in
  let conversationHistory :=
    filter (fun msg => negb (eqb (id msg) messageId)) (messages st) in
  (st3, mkStarted (mkStreamCall newContent conversationHistory)
                  (mkTask aiMessageId [])).

(** A whole chunk sequence delivered to a suspended handler. *)
Fixpoint deliver (chunks : list jsstring) (t : Task) (st : State) : State * Task :=
  match chunks with
  | [] => (st, t)
  | chunk :: rest => let '(st', t') := onChunk chunk t st in deliver rest t' st'
  end.


End HealthcareChat.

(** ** Async handlers that await the outside world

    A handler that awaits replies is a computation over the component
    state and a log of what it sent out; a rejected promise or a [throw]
    is the [Rejected] outcome. *)
Module Async.

(** A thrown value: an [Error] object with its message, or anything
    else. *)
Inductive Thrown :=
| ErrorObject (message : jsstring)
| NonError.

Inductive Outcome (A : Type) :=
| Resolved (a : A)
| Rejected (e : Thrown).
Arguments Rejected {A} e.

Section Monad.
Context {St Ev : Type}.

Definition M (A : Type) : Type := St -> list Ev -> Outcome A * St * list Ev.

Definition ret {A} (a : A) : M A := fun s l => (Resolved a, s, l).

Definition bind {A B} (m : M A) (k : A -> M B) : M B :=
  fun s l =>
    match m s l with
    | (Resolved a, s', l') => k a s' l'
    | (Rejected e, s', l') => (Rejected e, s', l')
    end.

(** [try { body } catch (e) { handler }]. *)
Definition tryCatch {A} (body : M A) (handler : Thrown -> M A) : M A :=
  fun s l =>
    match body s l with
    | (Resolved a, s', l') => (Resolved a, s', l')
    | (Rejected e, s', l') => handler e s' l'
    end.

(** [try { body } finally { fin }]. *)
Definition tryFinally {A} (body : M A) (fin : M unit) : M A :=
  fun s l =>
    match body s l with
    | (o, s', l') =>
        match fin s' l' with
        | (Resolved _, s'', l'') => (o, s'', l'')
        | (Rejected e, s'', l'') => (Rejected e, s'', l'')
        end
    end.

(** A state variable as the handler's closure holds it. *)
Definition gets {A} (f : St -> A) : M A := fun s l => (Resolved (f s), s, l).

(** A [setX(...)] call. *)
Definition modify (f : St -> St) : M unit := fun s l => (Resolved tt, f s, l).

(** Something observable leaves the handler without a reply. *)
Definition emit (ev : Ev) : M unit := fun s l => (Resolved tt, s, l ++ [ev]).

(** [await] of an outside call: the call is logged, its reply is the
    outcome. *)
Definition await {A} (ev : Ev) (reply : Outcome A) : M A :=
  fun s l => (reply, s, l ++ [ev]).

(** [await] of a local promise, nothing logged. *)
Definition awaitLocal {A} (reply : Outcome A) : M A := fun s l => (reply, s, l).

(** The state and the log a handler run ends with. *)
Definition run {A} (m : M A) (s : St) : St * list Ev :=
  match m s [] with (_, s', l) => (s', l) end.
End Monad.

Declare Scope async_scope.
Delimit Scope async_scope with async.
Notation "x <- m ;; k" := (bind m (fun x => k))
  (at level 61, m at next level, right associativity) : async_scope.
Notation "m ;; k" := (bind m (fun _ => k))
  (at level 61, right associativity) : async_scope.

End Async.

Import Async.

(** [{ isValid, message }], the reply of a validation call. *)
Record ValidationResult := mkValidation {
  isValid : bool;
  message : jsstring
}.

(** ** MedicineAnalyzer.tsx and MedicalImageAnalyzer.tsx

    The two components run the same handlers over their own record type,
    their own pair of client functions and their own literal texts;
    [MedicineAnalyzer] alone clears the old analysis on upload. *)
Module ImageAnalyzer.

Record File := mkFile {
  type : jsstring;
  bytes : jsstring
}.

Record Texts := mkTexts {
  invalidFileText : jsstring;
  noImageText : jsstring;
  warningBlocksText : jsstring;
  rejectionSuffix : jsstring;
  failedText : jsstring
}.

Section Component.
Variable Analysis : Type.
Variable txt : Texts.
Variable clearsAnalysisOnUpload : bool.

Record State := mkState {
  image : option File;
  additionalInfo : jsstring;
  loading : bool;
  validating : bool;
  analysis : option Analysis;
  error : jsstring;
  validationWarning : jsstring
}.

Definition setImage v st :=
  mkState v (additionalInfo st) (loading st) (validating st) (analysis st) (error st) (validationWarning st).
Definition setLoading v st :=
  mkState (image st) (additionalInfo st) v (validating st) (analysis st) (error st) (validationWarning st).
Definition setValidating v st :=
  mkState (image st) (additionalInfo st) (loading st) v (analysis st) (error st) (validationWarning st).
Definition setAnalysis v st :=
  mkState (image st) (additionalInfo st) (loading st) (validating st) v (error st) (validationWarning st).
Definition setError v st :=
  mkState (image st) (additionalInfo st) (loading st) (validating st) (analysis st) v (validationWarning st).
Definition setValidationWarning v st :=
  mkState (image st) (additionalInfo st) (loading st) (validating st) (analysis st) (error st) v.

(** What the handler sends out: the validation call, the analysis call
    and [console.error]. *)
Inductive Event :=
| ValidateCall (base64Image : jsstring)
| AnalyzeCall (base64Image additionalInfo : jsstring)
| ConsoleError (e : Thrown).

(** The replies during one handler run: the FileReader and the two
    client functions. *)
Record Env := mkEnv {
  convertImageToBase64 : File -> Outcome jsstring;
  validateImage : jsstring -> Outcome ValidationResult;
  analyzeImage : jsstring -> jsstring -> Outcome Analysis
}.

Local Open Scope async_scope.

Definition validateUploadedImage (env : Env) (file : File) : M (St:=State) (Ev:=Event) unit :=
  modify (setValidating true) ;;
  tryFinally
    (tryCatch
       (base64Image <- awaitLocal (convertImageToBase64 env file) ;;
        validation <- await (ValidateCall base64Image) (validateImage env base64Image) ;;
        if negb (isValid validation)
        then modify (setValidationWarning (message validation))
        else modify (setValidationWarning []))
       (fun err => emit (ConsoleError err)))
    (modify (setValidating false)).

(** [handleImageUpload] with the file of the change event, followed by
    the validation it starts. *)
Definition handleImageUpload (env : Env) (file : option File) : M (St:=State) (Ev:=Event) unit :=
  match file with
  | None => ret tt
  | Some file =>
      if startsWith (str "image/") (type file)
      then
        modify (setImage (Some file)) ;;
        modify (setError []) ;;
        modify (setValidationWarning []) ;;
        (if clearsAnalysisOnUpload then modify (setAnalysis None) else ret tt) ;;
        validateUploadedImage env file
      else modify (setError (invalidFileText txt))
  end.

Definition handleAnalyze (env : Env) : M (St:=State) (Ev:=Event) unit :=
  image <- gets image ;;
  validationWarning <- gets validationWarning ;;
  additionalInfo <- gets additionalInfo ;;
  match image with
  | None => modify (setError (noImageText txt))
  | Some image =>
      if truthy validationWarning
      then modify (setError (warningBlocksText txt))
      else
        modify (setLoading true) ;;
        modify (setError []) ;;
        tryFinally
          (tryCatch
             (base64Image <- awaitLocal (convertImageToBase64 env image) ;;
              validation <- await (ValidateCall base64Image) (validateImage env base64Image) ;;
              if negb (isValid validation)
              then
                modify (setError (message validation ++ rejectionSuffix txt)) ;;
                modify (setLoading false)
              else
                result <- await (AnalyzeCall base64Image (trim additionalInfo))
                                (analyzeImage env base64Image (trim additionalInfo)) ;;
                modify (setAnalysis (Some result)))
             (fun err =>
                emit (ConsoleError err) ;;
                modify (setError (failedText txt))))
          (modify (setLoading false))
  end.
End Component.

End ImageAnalyzer.

Module MedicineAnalyzer.

Inductive Severity := Low | Medium | High.
Inductive WithFood := Before | After | With | DoesntMatter.

Record WhenToTake := mkWhenToTake {
  timing : list jsstring;
  withFood : WithFood;
  frequency : jsstring
}.

Record SideEffects := mkSideEffects {
  common : list jsstring;
  serious : list jsstring;
  patientSpecific : list jsstring
}.

Record MedicineAnalysis := mkMedicineAnalysis {
  medicineName : jsstring;
  activeIngredients : list jsstring;
  whatItHelps : list jsstring;
  severity : Severity;
  doctorConsultationRequired : bool;
  whenToTake : WhenToTake;
  sideEffects : SideEffects;
  precautions : list jsstring;
  interactions : list jsstring;
  confidence : Z
}.

Definition texts : ImageAnalyzer.Texts :=
  ImageAnalyzer.mkTexts
    (str "Please upload a valid image file")
    (str "Please upload an image of the medicine")
    (str "Cannot analyze non-medicine images. Please upload a valid medicine image (tablets, capsules, bottles, packaging, etc.).")
    ([10; 10]%N ++ str "Please upload a clear image of medicine packaging, tablets, capsules, or medicine bottles.")
    (str "Failed to analyze medicine. Please try again.").

Definition State := ImageAnalyzer.State MedicineAnalysis.

(** [validateMedicineImage] and [analyzeMedicine] are the two client
    functions of the environment. *)
Definition Env := ImageAnalyzer.Env MedicineAnalysis.

Definition handleImageUpload := ImageAnalyzer.handleImageUpload (Analysis:=MedicineAnalysis) texts true.
Definition validateUploadedImage := ImageAnalyzer.validateUploadedImage (Analysis:=MedicineAnalysis).
Definition handleAnalyze := ImageAnalyzer.handleAnalyze (Analysis:=MedicineAnalysis) texts.

End MedicineAnalyzer.

Module MedicalImageAnalyzer.

Inductive FindingSeverity := Normal | Mild | Moderate | Severe | Critical.
Inductive Status := StatusNormal | AttentionNeeded | UrgentCareRequired.
Inductive Urgency := Low | Medium | High.

Record Finding := mkFinding {
  finding : jsstring;
  location : jsstring;
  severity : FindingSeverity;
  significance : jsstring
}.

Record OverallAssessment := mkOverallAssessment {
  status : Status;
  summary : jsstring;
  urgencyLevel : Urgency
}.

Record Recommendations := mkRecommendations {
  immediate : list jsstring;
  followUp : list jsstring;
  lifestyle : list jsstring
}.

Record MedicalImageAnalysis := mkMedicalImageAnalysis {
  imageType : jsstring;
  bodyPart : jsstring;
  keyFindings : list Finding;
  overallAssessment : OverallAssessment;
  recommendations : Recommendations;
  differentialDiagnosis : list jsstring;
  redFlags : list jsstring;
  nextSteps : list jsstring;
  confidence : Z
}.

Definition texts : ImageAnalyzer.Texts :=
  ImageAnalyzer.mkTexts
    (str "Please upload a valid image file")
    (str "Please upload a medical image")
    (str "Cannot analyze non-medical images. Please upload a valid medical image (X-ray, CT scan, MRI, ultrasound, ECG, etc.).")
    ([10; 10]%N ++ str "Please upload a valid medical image such as X-rays, CT scans, MRI, ultrasound, or ECG images.")
    (str "Failed to analyze medical image. Please try again.").

Definition State := ImageAnalyzer.State MedicalImageAnalysis.

(** [validateMedicalImage] and [analyzeMedicalImage] are the two client
    functions of the environment. *)
Definition Env := ImageAnalyzer.Env MedicalImageAnalysis.

Definition handleImageUpload := ImageAnalyzer.handleImageUpload (Analysis:=MedicalImageAnalysis) texts false.
Definition validateUploadedImage := ImageAnalyzer.validateUploadedImage (Analysis:=MedicalImageAnalysis).
Definition handleAnalyze := ImageAnalyzer.handleAnalyze (Analysis:=MedicalImageAnalysis) texts.

End MedicalImageAnalyzer.

(** ** The medical term explainer *)
Module MedicalTermExplainer.

Record State := mkState {
  term : jsstring;
  explanation : jsstring;
  loading : bool;
  error : jsstring
}.

Definition setExplanation v st := mkState (term st) v (loading st) (error st).
Definition setLoading v st := mkState (term st) (explanation st) v (error st).
Definition setError v st := mkState (term st) (explanation st) (loading st) v.

Inductive Event :=
| ValidateCall (term : jsstring)
| ExplainCall (term : jsstring).

Record Env := mkEnv {
  validateMedicalTerm : jsstring -> Outcome bool;
  explainMedicalTerm : jsstring -> Outcome jsstring
}.

Definition emptyTermText : jsstring := str "Please enter a medical term to explain.".
Definition notRecognizedText : jsstring :=
  [9888; 65039]%N ++ str " The input you provided is not recognized as a valid medical term. Please enter a valid term or code.".
Definition failedText : jsstring := str "Error explaining term. Please try again.".

Local Open Scope async_scope.

Definition handleExplain (env : Env) : M (St:=State) (Ev:=Event) unit :=
  term <- gets term ;;
  if negb (truthy (trim term))
  then modify (setError emptyTermText)
  else
    modify (setLoading true) ;;
    modify (setError []) ;;
    tryFinally
      (tryCatch
         (isValidMedicalTerm <- await (ValidateCall term) (validateMedicalTerm env term) ;;
          if negb isValidMedicalTerm
          then
            modify (setError notRecognizedText) ;;
            modify (setExplanation [])
          else
            result <- await (ExplainCall term) (explainMedicalTerm env term) ;;
            modify (setExplanation result))
         (fun error =>
            modify (setError (match error with
                              | ErrorObject message => message
                              | NonError => failedText
                              end)) ;;
            modify (setExplanation [])))
      (modify (setLoading false)).

End MedicalTermExplainer.

(** ** DrugInteraction.tsx: the medication collection *)
Module DrugInteraction.

Record State := mkState {
  drugs : list jsstring;
  currentDrug : jsstring;
  analysis : jsstring;
  loading : bool;
  error : jsstring;
  validating : bool
}.

Definition setDrugs v st :=
  mkState v (currentDrug st) (analysis st) (loading st) (error st) (validating st).
Definition setCurrentDrug v st :=
  mkState (drugs st) v (analysis st) (loading st) (error st) (validating st).
Definition setError v st :=
  mkState (drugs st) (currentDrug st) (analysis st) (loading st) v (validating st).
Definition setValidating v st :=
  mkState (drugs st) (currentDrug st) (analysis st) (loading st) (error st) v.

(** The one network call of [addDrug]. *)
Inductive Event :=
| ValidateCall (drugName : jsstring).

Record Env := mkEnv {
  validateMedicationName : jsstring -> Outcome bool
}.

Definition alreadyAddedText : jsstring := str "This medication has already been added.".
Definition invalidText : jsstring :=
  [9888; 65039]%N ++ str " Invalid input. Please enter a valid medication name.".
Definition validationFailedText : jsstring :=
  str "Error validating medication name. Please try again.".

Local Open Scope async_scope.

Definition addDrug (env : Env) : M (St:=State) (Ev:=Event) unit :=
  currentDrug <- gets currentDrug ;;
  drugs <- gets drugs ;;
  let drugName := trim currentDrug in
  if negb (truthy drugName)
  then ret tt
  else if includes drugs drugName
  then modify (setError alreadyAddedText)
  else
    modify (setValidating true) ;;
    modify (setError []) ;;
    tryFinally
      (tryCatch
         (isValid <- await (ValidateCall drugName) (validateMedicationName env drugName) ;;
          if negb isValid
          then
            modify (setError invalidText) ;;
            modify (setValidating false)
          else
            modify (setDrugs (drugs ++ [drugName])) ;;
            modify (setCurrentDrug []) ;;
            modify (setError []))
         (fun _ => modify (setError validationFailedText)))
      (modify (setValidating false)).

(** The user types [text] into the field and adds it. *)
Definition typeAndAdd (env : Env) (text : jsstring) (st : State) : State * list Event :=
  run (addDrug env) (setCurrentDrug text st).

End DrugInteraction.

(** ** HealthcareChat.tsx: the controls around the stream *)
Module ChatControls.
Import HealthcareChat.

(** [handleNewSession]; [confirmed] is the answer [window.confirm] gives
    if it is asked.  The second component tells whether it was asked. *)
Definition handleNewSession (confirmed : bool) (st : State) : State * bool :=
  if (0 <? List.length (messages st))%nat
  then
    if confirmed
    then (setInput [] (setMessages (fun _ => []) st), true)
    else (st, true)
  else (st, false).

(** [handleKeyDown] of the text area: Enter without Shift submits. *)
Definition handleKeyDown (key : jsstring) (shiftKey : bool) (now : nat -> Z)
    (st : State) : State * option Started :=
  if eqb key (str "Enter") && negb shiftKey
  then handleSubmit now st
  else (st, None).

(** One entry of [event.results]: its first alternative's transcript and
    the [isFinal] mark. *)
Record SpeechResult := mkSpeechResult {
  transcript : jsstring;
  isFinal : bool
}.

(** The loop of [recognition.onresult] over the results from
    [event.resultIndex] on: final transcripts are appended to the input,
    each followed by a space, the others are gathered in
    [interimTranscript]. *)
Fixpoint onresultLoop (results : list SpeechResult) (input interimTranscript : jsstring)
  : jsstring * jsstring :=
  match results with
  | [] => (input, interimTranscript)
  | r :: rest =>
      if isFinal r
      then onresultLoop rest (input ++ transcript r ++ str " ") interimTranscript
      else onresultLoop rest input (interimTranscript ++ transcript r)
  end.

(** [recognition.onresult]: the new [input] and the new [interimText]. *)
Definition onresult (resultIndex : nat) (results : list SpeechResult) (input : jsstring)
  : jsstring * jsstring :=
  onresultLoop (skipn resultIndex results) input [].

(** The [useState] cells of one [MessageBubble]. *)
Record Bubble := mkBubble {
  copied : bool;
  isEditing : bool;
  editedContent : jsstring
}.

Definition handleEdit (message : Message) (b : Bubble) : Bubble :=
  mkBubble (copied b) true (content message).

(** The bubble's [handleCancel]: the edit is given up. *)
Definition handleCancelEdit (message : Message) (b : Bubble) : Bubble :=
  mkBubble (copied b) false (content message).

(** The [onSaveEdit] prop a bubble gets: defined for a user message while
    nothing is loading, and then [handleSaveEditedMessage]. *)
Definition onSaveEdit (st : State) (message : Message) : bool :=
  match role message with
  | user => negb (isLoading st)
  | assistant => false
  end.

(** The bubble's [handleSave], with the call of the prop carried out. *)
Definition handleSave (now : nat -> Z) (message : Message) (b : Bubble) (st : State)
  : Bubble * State * option Started :=
  if truthy (trim (editedContent b)) && onSaveEdit st message
  then
    let r := handleSaveEditedMessage now (id message) (trim (editedContent b)) st in
    (mkBubble (copied b) false (editedContent b), fst r, Some (snd r))
  else (b, st, None).

(** The bubble's [handleKeyDown]: Enter without Shift saves, Escape
    gives up. *)
Definition handleBubbleKeyDown (key : jsstring) (shiftKey : bool) (now : nat -> Z)
    (message : Message) (b : Bubble) (st : State) : Bubble * State * option Started :=
  if eqb key (str "Enter") && negb shiftKey
  then handleSave now message b st
  else if eqb key (str "Escape")
  then (handleCancelEdit message b, st, None)
  else (b, st, None).

End ChatControls.

(** ** HealthcareChat.tsx: handlers suspended at their awaits

    Every accepted submission leaves an async handler suspended in its
    [for await] loop.  The world is the component state with the locals
    of the handlers started so far, in the order they started ([None]
    once a handler has run to its end).  An event is what the user or the
    transport does next: a submission of a text, a chunk for a suspended
    handler, the end or the rejection of its stream, or a click on
    Cancel, which signals the transport and leaves the handlers suspended
    until their streams end. *)
Module ChatTrace.
Import HealthcareChat.

Inductive Event :=
| Submit (now : nat -> Z) (text : jsstring)
| Chunk (k : nat) (chunk : jsstring)
| End (k : nat)
| Throw (k : nat) (now : nat -> Z)
| Cancel.

Record World := mkWorld {
  ui : State;
  handlers : list (option Task)
}.

(** The locals of the [k]-th handler, if it is still suspended. *)
Definition suspended (w : World) (k : nat) : option Task :=
  match nth_error (handlers w) k with
  | Some (Some t) => Some t
  | _ => None
  end.

Definition step (w : World) (e : Event) : World :=
  match e with
  | Submit now text =>
      let r := handleSubmit now (setInput text (ui w)) in
      mkWorld (fst r)
        (match snd r with
         | Some started => handlers w ++ [Some (task started)]
         | None => handlers w
         end)
  | Chunk k chunk =>
      match suspended w k with
      | Some t =>
          let r := onChunk chunk t (ui w) in
          mkWorld (fst r) (assign (handlers w) k (Some (snd r)))
      | None => w
      end
  | End k =>
      match suspended w k with
      | Some t => mkWorld (onEnd t (ui w)) (assign (handlers w) k None)
      | None => w
      end
  | Throw k now =>
      match suspended w k with
      | Some t => mkWorld (onThrow now t (ui w)) (assign (handlers w) k None)
      | None => w
      end
  | Cancel => mkWorld (handleCancel (ui w)) (handlers w)
  end.

Definition run (events : list Event) (w : World) : World :=
  fold_left step events w.



End ChatTrace.

(** ** DrugInteraction.tsx: removing entries and checking the collection *)
Module DrugCheck.
Import DrugInteraction.

Definition setAnalysis v st :=
  mkState (drugs st) (currentDrug st) v (loading st) (error st) (validating st).
Definition setLoading v st :=
  mkState (drugs st) (currentDrug st) (analysis st) v (error st) (validating st).

(** [l.filter((_, i) => i !== index)], the indices counted from [i]. *)
Fixpoint filterIndexNot {A} (index i : nat) (l : list A) : list A :=
  match l with
  | [] => []
  | x :: l' =>
      if Nat.eqb i index then filterIndexNot index (S i) l'
      else x :: filterIndexNot index (S i) l'
  end.

Definition removeDrug (index : nat) (st : State) : State :=
  setError [] (setDrugs (filterIndexNot index 0 (drugs st)) st).

(** The one network call of [handleCheck]. *)
Inductive Event :=
| CheckCall (drugs : list jsstring).

Record Env := mkEnv {
  checkDrugInteraction : list jsstring -> Outcome jsstring
}.

Definition noDrugsText : jsstring :=
  str "Please enter at least one medication to analyze.".
Definition checkFailedText : jsstring :=
  str "Error analyzing medications. Please try again.".

Local Open Scope async_scope.

Definition handleCheck (env : Env) : M (St:=State) (Ev:=Event) unit :=
  drugs <- gets drugs ;;
  if (List.length drugs <? 1)%nat
  then modify (setError noDrugsText)
  else
    modify (setLoading true) ;;
    modify (setError []) ;;
    tryCatch
      (result <- await (CheckCall drugs) (checkDrugInteraction env drugs) ;;
       modify (setAnalysis result))
      (fun error =>
         modify (setError (match error with
                           | ErrorObject message => message
                           | NonError => checkFailedText
                           end)) ;;
         modify (setAnalysis [])) ;;
    modify (setLoading false).

End DrugCheck.

(** ** The data URL of the FileReader *)
Module DataUrl.

(** [s.split(sep)] for a separator of one code unit. *)
Fixpoint split (sep : code_unit) (s : jsstring) : list jsstring :=
  match s with
  | [] => [[]]
  | c :: s' =>
      if N.eqb c sep then [] :: split sep s'
      else match split sep s' with
           | [] => [[c]]
           | p :: ps => (c :: p) :: ps
           end
  end.

(** [(reader.result as string).split(',')[1]] of
    [convertImageToBase64]; [None] stands for [undefined]. *)
Definition base64String (result : jsstring) : option jsstring :=
  nth_error (split 44%N result) 1.

End DataUrl.

(** ** Login.tsx *)
Module Login.

Record State := mkState {
  isFlipped : bool;
  email : jsstring;
  password : jsstring;
  signupEmail : jsstring;
  signupPassword : jsstring;
  loginOutput : jsstring;
  signupOutput : jsstring
}.

Definition setIsFlipped v st :=
  mkState v (email st) (password st) (signupEmail st) (signupPassword st)
    (loginOutput st) (signupOutput st).
Definition setLoginOutput v st :=
  mkState (isFlipped st) (email st) (password st) (signupEmail st) (signupPassword st)
    v (signupOutput st).
Definition setSignupOutput v st :=
  mkState (isFlipped st) (email st) (password st) (signupEmail st) (signupPassword st)
    (loginOutput st) v.

(** The calls of the identity client, and the two timers the handlers
    set: [navigate('/')] after 1200 ms, [setIsFlipped(false)] after
    1500 ms. *)
Inductive Event :=
| SignInWithPassword (email password : jsstring)
| SignUp (email password : jsstring)
| NavigateHomeAfter (ms : Z)
| FlipBackAfter (ms : Z).

(** The client resolves with [{ error }]: [None] for [null], [Some m] for
    an error with message [m]. *)
Record Env := mkEnv {
  signInWithPassword : jsstring -> jsstring -> Outcome (option jsstring);
  signUp : jsstring -> jsstring -> Outcome (option jsstring)
}.

Definition fillBothText : jsstring := [9888]%N ++ str " Please fill both fields.".
Definition crossMark : jsstring := [10060]%N ++ str " ".
Definition loggedInText : jsstring := [9989]%N ++ str " Logged in! Redirecting...".
Definition signedUpText : jsstring := [9989]%N ++ str " Signup successful! Verify your email.".

Local Open Scope async_scope.

Definition handleLogin (env : Env) : M (St:=State) (Ev:=Event) unit :=
  email <- gets email ;;
  password <- gets password ;;
  if negb (truthy email) || negb (truthy password)
  then modify (setLoginOutput fillBothText)
  else
    error <- await (SignInWithPassword email password)
                   (signInWithPassword env email password) ;;
    match error with
    | Some message => modify (setLoginOutput (crossMark ++ message))
    | None =>
        modify (setLoginOutput loggedInText) ;;
        emit (NavigateHomeAfter 1200)
    end.

Definition handleSignup (env : Env) : M (St:=State) (Ev:=Event) unit :=
  signupEmail <- gets signupEmail ;;
  signupPassword <- gets signupPassword ;;
  if negb (truthy signupEmail) || negb (truthy signupPassword)
  then modify (setSignupOutput fillBothText)
  else
    error <- await (SignUp signupEmail signupPassword)
                   (signUp env signupEmail signupPassword) ;;
    match error with
    | Some message => modify (setSignupOutput (crossMark ++ message))
    | None =>
        modify (setSignupOutput signedUpText) ;;
        emit (FlipBackAfter 1500)
    end.

End Login.

(** ** Auxiliary definitions *)

(** The update a chunk makes and the filter of the [catch] block. *)
Definition withChunk (t : HealthcareChat.Task) (full : jsstring) (msg : HealthcareChat.Message) : HealthcareChat.Message :=
  if eqb (HealthcareChat.id msg) (HealthcareChat.aiMessageId t)
  then HealthcareChat.mkMessage (HealthcareChat.id msg) (HealthcareChat.role msg) full (HealthcareChat.timestamp msg) (Some true)
  else msg.

Definition notTask (t : HealthcareChat.Task) (msg : HealthcareChat.Message) : bool :=
  negb (eqb (HealthcareChat.id msg) (HealthcareChat.aiMessageId t)).

(** A string that is empty or begins with a code unit [trim] keeps. *)
Definition startsClean (s : jsstring) : Prop :=
  match s with
  | [] => True
  | c :: _ => isWhiteSpace c = false
  end.

(** What the streaming events leave alone in a message. *)
Definition skeleton (msg : HealthcareChat.Message) : jsstring * HealthcareChat.Role * Z :=
  (HealthcareChat.id msg, HealthcareChat.role msg, HealthcareChat.timestamp msg).

(** The update of the code after the [for await] loop. *)
Definition withEnd (t : HealthcareChat.Task) (msg : HealthcareChat.Message) : HealthcareChat.Message :=
  if eqb (HealthcareChat.id msg) (HealthcareChat.aiMessageId t)
  then HealthcareChat.mkMessage (HealthcareChat.id msg) (HealthcareChat.role msg)
         (HealthcareChat.content msg) (HealthcareChat.timestamp msg) (Some false)
  else msg.

(** ** Sample data *)

(** A five-message conversation with ids ["1"] to ["5"]. *)
Definition sample_u1 := HealthcareChat.mkMessage (str "1") HealthcareChat.user (str "I have a headache") 1000 None.
Definition sample_a1 := HealthcareChat.mkMessage (str "2") HealthcareChat.assistant (str "Since when?") 1001 (Some false).
Definition sample_u2 := HealthcareChat.mkMessage (str "3") HealthcareChat.user (str "Since monday") 2000 None.
Definition sample_a2 := HealthcareChat.mkMessage (str "4") HealthcareChat.assistant (str "Rest and drink water") 2001 (Some false).
Definition sample_u3 := HealthcareChat.mkMessage (str "5") HealthcareChat.user (str "Thanks") 3000 None.
Definition sample_transcript :=
  [sample_u1; sample_a1; sample_u2; sample_a2; sample_u3].
Definition sample_now : nat -> Z := fun k => (5000 + Z.of_nat k)%Z.

(** An uploaded photo, and clients for which it is no medicine and no
    medical image. *)
Definition sample_file : ImageAnalyzer.File :=
  ImageAnalyzer.mkFile (str "image/png") (str "photo").
Definition sample_base64 : jsstring := str "cGhvdG8=".
Definition sample_invalid : ValidationResult :=
  mkValidation false (str "Not a medicine").
Definition sample_medicine_env : MedicineAnalyzer.Env :=
  ImageAnalyzer.mkEnv
    (fun _ => Resolved sample_base64)
    (fun _ => Resolved sample_invalid)
    (fun _ _ => Rejected (ErrorObject (str "unreachable"))).
Definition sample_scan_env : MedicalImageAnalyzer.Env :=
  ImageAnalyzer.mkEnv
    (fun _ => Resolved sample_base64)
    (fun _ => Resolved sample_invalid)
    (fun _ _ => Rejected (ErrorObject (str "unreachable"))).

(** How often a name occurs in the medication collection. *)
Definition occurrences (x : jsstring) (l : list jsstring) : nat :=
  List.length (filter (eqb x) l).

(** * Properties *)

(** ** Strings and arrays *)

Lemma eqb_eq (a b : jsstring) : eqb a b = true <-> a = b.
Proof.
  revert b; induction a as [|x a IH]; intros [|y b]; simpl; split;
    try congruence; try reflexivity.
  - intros H. apply andb_true_iff in H as [Hx Hab].
    apply N.eqb_eq in Hx. apply IH in Hab. congruence.
  - intros H. injection H as -> ->.
    apply andb_true_iff. split; [apply N.eqb_refl | now apply IH].
Qed.

Lemma eqb_refl (a : jsstring) : eqb a a = true.
Proof. now apply eqb_eq. Qed.

Lemma eqb_neq (a b : jsstring) : eqb a b = false <-> a <> b.
Proof.
  split.
  - intros H E. apply eqb_eq in E. congruence.
  - intros H. destruct (eqb a b) eqn:E; [apply eqb_eq in E; contradiction | reflexivity].
Qed.

Lemma includes_In (l : list jsstring) (x : jsstring) : includes l x = true <-> In x l.
Proof.
  unfold includes. rewrite existsb_exists. split.
  - intros [y [Hy E]]. apply eqb_eq in E. now subst.
  - intros H. exists x. split; [assumption | apply eqb_refl].
Qed.

Lemma findIndex_app_hit {A} (p : A -> bool) (pre : list A) (x : A) (post : list A) :
  (forall y, In y pre -> p y = false) -> p x = true ->
  findIndex p (pre ++ x :: post) = Some (List.length pre).
Proof.
  intros Hpre Hx. induction pre as [|y pre IH]; simpl.
  - now rewrite Hx.
  - rewrite (Hpre y (or_introl eq_refl)).
    rewrite IH; [reflexivity | intros z Hz; apply Hpre; now right].
Qed.

Lemma assign_last {A} (pre : list A) (x v : A) :
  assign (pre ++ [x]) (List.length pre) v = pre ++ [v].
Proof. induction pre as [|y pre IH]; simpl; [reflexivity | now rewrite IH]. Qed.

(** ** The streaming session *)
Section ChatProperties.
Import HealthcareChat.

Lemma handleSubmit_busy (now : nat -> Z) (st : State) :
  isLoading st = true -> handleSubmit now st = (st, None).
Proof.
  intros H. unfold handleSubmit. rewrite H.
  now rewrite orb_true_r.
Qed.

Lemma handleSubmit_empty (now : nat -> Z) (st : State) :
  truthy (trim (input st)) = false -> handleSubmit now st = (st, None).
Proof. intros H. unfold handleSubmit. now rewrite H. Qed.

Lemma handleSubmit_idle (now : nat -> Z) (st : State) :
  isLoading st = false -> truthy (trim (input st)) = true ->
  handleSubmit now st =
    (mkState
       ((messages st
           ++ [mkMessage (toString (now 0%nat)) user (trim (input st)) (now 1%nat) None])
          ++ [mkMessage (toString (now 2%nat + 1)) assistant [] (now 3%nat) (Some true)])
       [] true,
     Some (mkStarted (mkStreamCall (trim (input st)) (messages st))
                     (mkTask (toString (now 2%nat + 1)) []))).
Proof.
  intros Hl Hi. unfold handleSubmit. rewrite Hl, Hi. reflexivity.
Qed.

Lemma onChunk_isLoading chunk t st : isLoading (fst (onChunk chunk t st)) = isLoading st.
Proof. reflexivity. Qed.

Lemma deliver_isLoading chunks : forall t st,
  isLoading (fst (deliver chunks t st)) = isLoading st.
Proof.
  induction chunks as [|c chunks IH]; intros t st; simpl; [reflexivity|].
  destruct (onChunk c t st) as [st' t'] eqn:E.
  rewrite IH. replace st' with (fst (onChunk c t st)) by now rewrite E.
  apply onChunk_isLoading.
Qed.


Section SingleFlight.
Import ChatTrace.

















End SingleFlight.

Lemma edit_truncates (now : nat -> Z) (pre post : list Message) (u : Message)
    (newContent inp : jsstring) (busy : bool) :
  (forall m, In m pre -> id m <> id u) ->
  messages (fst (handleSaveEditedMessage now (id u) newContent
                   (mkState (pre ++ u :: post) inp busy)))
  = pre ++ [mkMessage (id u) (role u) newContent (now 0%nat) (isStreaming u);
            mkMessage (toString (now 1%nat)) assistant [] (now 2%nat) (Some true)].
Proof.
  intros Hpre. unfold handleSaveEditedMessage. simpl.
  rewrite findIndex_app_hit.
  - rewrite firstn_app, firstn_all2 by lia.
    replace (List.length pre + 1 - List.length pre)%nat with 1%nat by lia.
    simpl firstn.
    rewrite nth_error_app2, Nat.sub_diag by lia. simpl nth_error.
    cbv iota beta. rewrite assign_last. now rewrite <- app_assoc.
  - intros y Hy. apply eqb_neq. now apply Hpre.
  - apply eqb_refl.
Qed.

(** C2 (edit truncation).  Editing [u2] in the transcript
    [u1; a1; u2; a2; u3], the ids of [u1] and [a1] being other than
    [u2]'s, leaves [u1; a1; u2'; ai]: [a2] and [u3] are gone, [u2'] is
    [u2] with the new content and the time of the edit, and [ai] is the
    one new assistant message, empty and streaming. *)
Theorem edit_truncation (now : nat -> Z) (u1 a1 u2 a2 u3 : Message)
    (newContent inp : jsstring) (busy : bool) :
  id u1 <> id u2 ->
  id a1 <> id u2 ->
  messages (fst (handleSaveEditedMessage now (id u2) newContent
                   (mkState [u1; a1; u2; a2; u3] inp busy)))
  = [u1; a1;
     mkMessage (id u2) (role u2) newContent (now 0%nat) (isStreaming u2);
     mkMessage (toString (now 1%nat)) assistant [] (now 2%nat) (Some true)].
Proof.
  intros H1 H2.
  apply (edit_truncates now [u1; a1] [a2; u3] u2 newContent inp busy).
  intros m [<- | [<- | []]]; assumption.
Qed.

Lemma edit_truncation_witness :
  messages (fst (handleSaveEditedMessage sample_now (str "3") (str "Since sunday")
                   (mkState sample_transcript [] false)))
  = [sample_u1; sample_a1;
     mkMessage (str "3") user (str "Since sunday") 5000 None;
     mkMessage (str "5001") assistant [] 5002 (Some true)].
Proof.
  apply (edit_truncation sample_now sample_u1 sample_a1 sample_u2 sample_a2 sample_u3
           (str "Since sunday") [] false); discriminate.
Defined.

(** C3 (edit regeneration context), evaluated on the five-message
    conversation: the request carries the edited text, and as history the
    transcript of before the edit without the edited message, so the
    messages [a2] and [u3] that the truncation removes are sent along. *)
Theorem edit_history_keeps_discarded :
  let r := handleSaveEditedMessage sample_now (str "3") (str "Since sunday")
             (mkState sample_transcript [] false) in
  userText (call (snd r)) = str "Since sunday"
  /\ conversationHistory (call (snd r)) = [sample_u1; sample_a1; sample_a2; sample_u3]
  /\ conversationHistory (call (snd r)) <> [sample_u1; sample_a1]
  /\ In sample_a2 (conversationHistory (call (snd r)))
  /\ In sample_u3 (conversationHistory (call (snd r)))
  /\ ~ In sample_a2 (messages (fst r))
  /\ ~ In sample_u3 (messages (fst r)).
Proof.
  cbv zeta. repeat split.
  - discriminate.
  - vm_compute. tauto.
  - vm_compute. tauto.
  - vm_compute. intros H. repeat (destruct H as [H | H]; [discriminate H|]). exact H.
  - vm_compute. intros H. repeat (destruct H as [H | H]; [discriminate H|]). exact H.
Qed.

Lemma onChunk_messages chunk t st :
  messages (fst (onChunk chunk t st))
  = map (withChunk t (fullResponse t ++ chunk)) (messages st).
Proof. reflexivity. Qed.

Lemma filter_withChunk t full (l : list Message) :
  filter (notTask t) (map (withChunk t full) l) = filter (notTask t) l.
Proof.
  induction l as [|m l IH]; simpl; [reflexivity|].
  rewrite IH. unfold withChunk, notTask.
  destruct (eqb (id m) (aiMessageId t)) eqn:E; simpl; rewrite E; reflexivity.
Qed.

Lemma deliver_cons c chunks t st :
  deliver (c :: chunks) t st = deliver chunks (snd (onChunk c t st)) (fst (onChunk c t st)).
Proof. reflexivity. Qed.

(** The message a task fills stays the last one while chunks arrive, and
    holds the text accumulated so far. *)
Lemma deliver_active chunks : forall t st before m,
  messages st = before ++ [m] ->
  id m = aiMessageId t ->
  content m = fullResponse t ->
  isStreaming m = Some true ->
  exists before',
    List.length before' = List.length before
    /\ filter (notTask t) before' = filter (notTask t) before
    /\ messages (fst (deliver chunks t st))
       = before' ++ [mkMessage (id m) (role m) (fullResponse t ++ List.concat chunks)
                       (timestamp m) (Some true)]
    /\ snd (deliver chunks t st)
       = mkTask (aiMessageId t) (fullResponse t ++ List.concat chunks).
Proof.
  induction chunks as [|c chunks IH]; intros t st before m Hst Hid Hc Hs.
  - exists before. simpl. rewrite app_nil_r. repeat split.
    + rewrite Hst. f_equal. f_equal. destruct m; simpl in *; congruence.
    + now destruct t.
  - rewrite deliver_cons.
    set (st' := fst (onChunk c t st)).
    set (t' := mkTask (aiMessageId t) (fullResponse t ++ c)).
    change (snd (onChunk c t st)) with t'.
    assert (Hm' : messages st' = map (withChunk t (fullResponse t ++ c)) before
                   ++ [mkMessage (id m) (role m) (fullResponse t ++ c) (timestamp m) (Some true)]).
    { unfold st'. rewrite onChunk_messages, Hst, map_app. simpl. f_equal.
      unfold withChunk. rewrite Hid, eqb_refl. reflexivity. }
    destruct (IH t' st' _ _ Hm' Hid eq_refl eq_refl)
      as (before' & Hlen & Hfil & Hmsg & Htask).
    exists before'. simpl in Hmsg, Htask.
    rewrite <- app_assoc in Hmsg, Htask.
    split; [now rewrite Hlen, length_map|].
    split; [|split; assumption].
    change (filter (notTask t) before'
            = filter (notTask t) (map (withChunk t (fullResponse t ++ c)) before)) in Hfil.
    rewrite Hfil. apply filter_withChunk.
Qed.

(** C5 (streaming accumulation).  After an accepted submission, and
    after any number [k] of the chunks have arrived in order, the
    assistant message of the request is the last of the transcript, its
    content is the concatenation of the chunks received so far and it is
    streaming; once the sequence has ended it holds the concatenation of
    all chunks and is no longer streaming. *)
Theorem streaming_accumulation (now : nat -> Z) (st : State) (chunks : list jsstring) :
  isLoading st = false ->
  truthy (trim (input st)) = true ->
  exists st1 started,
    handleSubmit now st = (st1, Some started)
    /\ (forall k, exists before,
          messages (fst (deliver (firstn k chunks) (task started) st1))
          = before ++ [mkMessage (aiMessageId (task started)) assistant
                         (List.concat (firstn k chunks)) (now 3%nat) (Some true)])
    /\ (exists before,
          messages (onEnd (snd (deliver chunks (task started) st1))
                          (fst (deliver chunks (task started) st1)))
          = before ++ [mkMessage (aiMessageId (task started)) assistant
                         (List.concat chunks) (now 3%nat) (Some false)]).
Proof.
  intros Hidle Htext.
  rewrite (handleSubmit_idle now st Hidle Htext).
  eexists; eexists. split; [reflexivity|]. simpl task.
  set (t := mkTask (toString (now 2%nat + 1)) []).
  set (ai := mkMessage (toString (now 2%nat + 1)) assistant [] (now 3%nat) (Some true)).
  set (st1 := mkState _ [] true).
  assert (Hlast : forall cs, exists before',
             messages (fst (deliver cs t st1))
             = before' ++ [mkMessage (aiMessageId t) assistant (List.concat cs) (now 3%nat) (Some true)]
             /\ snd (deliver cs t st1) = mkTask (aiMessageId t) (List.concat cs)).
  { intros cs.
    destruct (deliver_active cs t st1
                (messages st ++ [mkMessage (toString (now 0%nat)) user (trim (input st)) (now 1%nat) None])
                ai)
      as (before' & _ & _ & Hmsg & Htask); try reflexivity.
    exists before'. split; assumption. }
  split.
  - intros k. destruct (Hlast (firstn k chunks)) as (before' & Hmsg & _).
    now exists before'.
  - destruct (Hlast chunks) as (before' & Hmsg & Htask).
    rewrite Htask. unfold onEnd. simpl. rewrite Hmsg, map_app. simpl.
    rewrite eqb_refl. eexists. reflexivity.
Qed.

Lemma streaming_accumulation_witness :
  let st := mkState [] (str "hello") false in
  let now := fun _ : nat => 1700000000000%Z in
  exists st1 started,
    handleSubmit now st = (st1, Some started)
    /\ (forall k, exists before,
          messages (fst (deliver (firstn k [str "Hel"; str "lo, "; str "world"])
                           (task started) st1))
          = before ++ [mkMessage (aiMessageId (task started)) assistant
                         (List.concat (firstn k [str "Hel"; str "lo, "; str "world"]))
                         (now 3%nat) (Some true)])
    /\ (exists before,
          messages (onEnd (snd (deliver [str "Hel"; str "lo, "; str "world"] (task started) st1))
                          (fst (deliver [str "Hel"; str "lo, "; str "world"] (task started) st1)))
          = before ++ [mkMessage (aiMessageId (task started)) assistant
                         (List.concat [str "Hel"; str "lo, "; str "world"])
                         (now 3%nat) (Some false)]).
Proof.
  intros st now.
  apply (streaming_accumulation now st [str "Hel"; str "lo, "; str "world"]); reflexivity.
Defined.

(** The three chunks of the example, one at a time. *)
Example hello_world_chunks :
  let st := mkState [] (str "hello") false in
  let now := fun _ : nat => 1700000000000%Z in
  let ai c s := mkMessage (str "1700000000001") assistant (str c) 1700000000000 (Some s) in
  let u := mkMessage (str "1700000000000") user (str "hello") 1700000000000 None in
  match handleSubmit now st with
  | (st1, Some started) =>
      let r1 := onChunk (str "Hel") (task started) st1 in
      let r2 := onChunk (str "lo, ") (snd r1) (fst r1) in
      let r3 := onChunk (str "world") (snd r2) (fst r2) in
      messages (fst r1) = [u; ai "Hel"%string true]
      /\ messages (fst r2) = [u; ai "Hello, "%string true]
      /\ messages (fst r3) = [u; ai "Hello, world"%string true]
      /\ messages (onEnd (snd r3) (fst r3)) = [u; ai "Hello, world"%string false]
  | _ => False
  end.
Proof. vm_compute. repeat split. Qed.

(** C4 (cancellation finality), as the code has it.  When [handleCancel]
    returns the loading flag is off and no message is streaming; a
    message that was streaming keeps its content, or holds the
    cancellation text if its content was empty; every other message is
    untouched.  The handlers keep no liveness flag for a request: a chunk
    that still reaches the suspended loop afterwards is applied like any
    other, the message of the request takes the accumulated text with
    that chunk and is streaming again. *)
Theorem cancel_finality (st : State) (t : Task) (chunk : jsstring) :
  let st' := handleCancel st in
  isLoading st' = false
  /\ (forall m', In m' (messages st') -> isStreaming m' <> Some true)
  /\ (forall i m, nth_error (messages st) i = Some m -> isStreaming m = Some true ->
        nth_error (messages st') i
        = Some (mkMessage (id m) (role m)
                  (if truthy (content m) then content m else cancelledText)
                  (timestamp m) (Some false)))
  /\ (forall i m, nth_error (messages st) i = Some m -> isStreaming m <> Some true ->
        nth_error (messages st') i = Some m)
  /\ (forall i m', nth_error (messages st') i = Some m' -> id m' = aiMessageId t ->
        nth_error (messages (fst (onChunk chunk t st'))) i
        = Some (mkMessage (id m') (role m') (fullResponse t ++ chunk)
                  (timestamp m') (Some true))).
Proof.
  cbv zeta. split; [reflexivity|]. split; [|split; [|split]].
  - intros m' Hin. unfold handleCancel in Hin. simpl in Hin.
    apply in_map_iff in Hin as [m [<- _]].
    unfold streamingNow. destruct (isStreaming m) as [[|]|] eqn:E; simpl; congruence.
  - intros i m Hnth Hs. unfold handleCancel. simpl.
    rewrite nth_error_map, Hnth. simpl. unfold streamingNow. now rewrite Hs.
  - intros i m Hnth Hs. unfold handleCancel. simpl.
    rewrite nth_error_map, Hnth. simpl. unfold streamingNow.
    destruct (isStreaming m) as [[|]|]; congruence.
  - intros i m' Hnth Hid. rewrite onChunk_messages.
    rewrite nth_error_map, Hnth. simpl. unfold withChunk.
    now rewrite Hid, eqb_refl.
Qed.

(** C4, the statement as claimed fails: a request is started with the
    text "hi", the chunk "Hel" arrives, the user cancels, and the chunk
    "lo" is delivered to the loop after that.  The cancelled message is
    rewritten to "Hello" and is streaming again. *)
Lemma late_chunk_after_cancel :
  let now := fun _ : nat => 1700000000000%Z in
  let u := mkMessage (str "1700000000000") user (str "hi") 1700000000000 None in
  let ai c s := mkMessage (str "1700000000001") assistant (str c) 1700000000000 (Some s) in
  match handleSubmit now (mkState [] (str "hi") false) with
  | (st1, Some started) =>
      let r1 := onChunk (str "Hel") (task started) st1 in
      let cancelled := handleCancel (fst r1) in
      let late := fst (onChunk (str "lo") (snd r1) cancelled) in
      messages cancelled = [u; ai "Hel"%string false]
      /\ messages late = [u; ai "Hello"%string true]
      /\ messages late <> messages cancelled
  | _ => False
  end.
Proof. vm_compute. repeat split. discriminate. Qed.

Lemma onThrow_messages now t st :
  messages (onThrow now t st)
  = filter (notTask t) (messages st)
    ++ [mkMessage (toString (now 0%nat)) assistant errorText (now 1%nat) None].
Proof. reflexivity. Qed.

(** C8 (stream failure replacement).  After an accepted submission and
    any number of chunks (none: the call rejects before streaming), a
    rejection of the streaming call leaves the earlier transcript and the
    user message without any message of the request's id, followed by one
    new assistant message with the failure notice; nothing of the partial
    text is kept, the loading flag is off, and a next submission with a
    non-empty text is accepted. *)
Theorem stream_failure_replacement (now nowE : nat -> Z) (st : State)
    (chunks : list jsstring) :
  isLoading st = false ->
  truthy (trim (input st)) = true ->
  exists st1 started,
    handleSubmit now st = (st1, Some started)
    /\ let userMessage :=
         mkMessage (toString (now 0%nat)) user (trim (input st)) (now 1%nat) None in
       let errorMessage :=
         mkMessage (toString (nowE 0%nat)) assistant errorText (nowE 1%nat) None in
       let streamed := deliver chunks (task started) st1 in
       let failed := onThrow nowE (snd streamed) (fst streamed) in
       messages failed
       = filter (notTask (task started)) (messages st ++ [userMessage]) ++ [errorMessage]
       /\ (forall m, In m (messages failed) ->
             m = errorMessage
             \/ (In m (messages st ++ [userMessage]) /\ id m <> aiMessageId (task started)))
       /\ isLoading failed = false
       /\ (forall now' text, truthy (trim text) = true ->
             exists started', snd (handleSubmit now' (setInput text failed)) = Some started').
Proof.
  intros Hidle Htext.
  rewrite (handleSubmit_idle now st Hidle Htext).
  eexists; eexists. split; [reflexivity|]. simpl task. cbv zeta.
  set (t := mkTask (toString (now 2%nat + 1)) []).
  set (userMessage := mkMessage (toString (now 0%nat)) user (trim (input st)) (now 1%nat) None).
  set (errorMessage := mkMessage (toString (nowE 0%nat)) assistant errorText (nowE 1%nat) None).
  set (st1 := mkState _ [] true).
  destruct (deliver_active chunks t st1 (messages st ++ [userMessage])
              (mkMessage (toString (now 2%nat + 1)) assistant [] (now 3%nat) (Some true)))
    as (before' & _ & Hfil & Hmsg & Htask); try reflexivity.
  assert (Hfinal : messages (onThrow nowE (snd (deliver chunks t st1)) (fst (deliver chunks t st1)))
                   = filter (notTask t) (messages st ++ [userMessage]) ++ [errorMessage]).
  { rewrite onThrow_messages, Hmsg, Htask, filter_app. simpl.
    unfold notTask at 2. simpl. rewrite eqb_refl. simpl.
    rewrite app_nil_r.
    transitivity (filter (notTask t) before' ++ [errorMessage]); [reflexivity|].
    now rewrite Hfil. }
  split; [exact Hfinal|]. split; [|split].
  - intros m Hin. rewrite Hfinal in Hin. apply in_app_or in Hin as [Hin | [<- | []]].
    + right. apply filter_In in Hin as [Hin Hnot]. split; [exact Hin|].
      unfold notTask in Hnot. apply negb_true_iff, eqb_neq in Hnot. exact Hnot.
    + now left.
  - reflexivity.
  - intros now' text Ht. unfold handleSubmit. simpl. rewrite Ht. simpl.
    eexists. reflexivity.
Qed.

Lemma stream_failure_replacement_witness :
  let now := fun _ : nat => 1700000000000%Z in
  let nowE := fun _ : nat => 1700000000500%Z in
  let st := mkState [] (str "hello") false in
  exists st1 started,
    handleSubmit now st = (st1, Some started)
    /\ let userMessage :=
         mkMessage (toString (now 0%nat)) user (trim (input st)) (now 1%nat) None in
       let errorMessage :=
         mkMessage (toString (nowE 0%nat)) assistant errorText (nowE 1%nat) None in
       let streamed := deliver [str "Hel"] (task started) st1 in
       let failed := onThrow nowE (snd streamed) (fst streamed) in
       messages failed
       = filter (notTask (task started)) (messages st ++ [userMessage]) ++ [errorMessage]
       /\ (forall m, In m (messages failed) ->
             m = errorMessage
             \/ (In m (messages st ++ [userMessage]) /\ id m <> aiMessageId (task started)))
       /\ isLoading failed = false
       /\ (forall now' text, truthy (trim text) = true ->
             exists started', snd (handleSubmit now' (setInput text failed)) = Some started').
Proof.
  intros now nowE st.
  apply (stream_failure_replacement now nowE st [str "Hel"]); reflexivity.
Defined.

(** The failure of the example, evaluated: the partial "Hel" is gone. *)
Example failure_after_partial_text :
  let now := fun _ : nat => 1700000000000%Z in
  let nowE := fun _ : nat => 1700000000500%Z in
  match handleSubmit now (mkState [] (str "hello") false) with
  | (st1, Some started) =>
      let streamed := deliver [str "Hel"] (task started) st1 in
      messages (onThrow nowE (snd streamed) (fst streamed))
      = [mkMessage (str "1700000000000") user (str "hello") 1700000000000 None;
         mkMessage (str "1700000000500") assistant errorText 1700000000500 None]
  | _ => False
  end.
Proof. vm_compute. reflexivity. Qed.

End ChatProperties.

(** ** The validate-then-analyze pipeline *)

Ltac run_handler :=
  unfold run, bind, tryFinally, tryCatch, gets, modify, emit, await, awaitLocal, ret;
  simpl.

Section AnalyzerProperties.
Import ImageAnalyzer.
Variable Analysis : Type.
Variable txt : Texts.

(** An analysis call leaves [handleAnalyze] only behind a final check
    that resolved with [isValid: true] for the same image. *)
Lemma analyze_call_needs_valid (env : Env Analysis) (st : State Analysis) b info :
  In (AnalyzeCall b info) (snd (run (handleAnalyze txt env) st)) ->
  exists m, validateImage env b = Resolved (mkValidation true m).
Proof.
  unfold handleAnalyze. run_handler.
  destruct (image st) as [f|]; simpl; [|tauto].
  destruct (truthy (validationWarning st)); simpl; [tauto|].
  destruct (convertImageToBase64 env f) as [b0|e] eqn:Ec; simpl;
    [|intros [H|[]]; discriminate H].
  destruct (validateImage env b0) as [[[|] m]|e] eqn:Ev; simpl.
  - destruct (analyzeImage env b0 (trim (additionalInfo st))); simpl.
    + intros [H|[H|[]]]; [discriminate H|]. injection H as <- _. now exists m.
    + intros [H|[H|[H|[]]]]; try discriminate H. injection H as <- _. now exists m.
  - intros [H|[]]. discriminate H.
  - intros [H|[H|[]]]; discriminate H.
Qed.

Lemma handleAnalyze_rejects (env : Env Analysis) (st : State Analysis) f b v :
  image st = Some f ->
  validationWarning st = [] ->
  convertImageToBase64 env f = Resolved b ->
  validateImage env b = Resolved v ->
  isValid v = false ->
  run (handleAnalyze txt env) st
  = (mkState (image st) (additionalInfo st) false (validating st) (analysis st)
       (message v ++ rejectionSuffix txt) (validationWarning st),
     [ValidateCall b]).
Proof.
  intros Hi Hw Hc Hv Hf. unfold handleAnalyze. run_handler.
  rewrite Hi, Hw. simpl. rewrite Hc. simpl. rewrite Hv. simpl. rewrite Hf. simpl.
  unfold setLoading, setError. simpl. now rewrite Hi, Hw.
Qed.

(** A pre-check that fails, in the FileReader or in the validation
    call, is logged and leaves no warning and no error behind. *)
Lemma handleImageUpload_precheck_fails clears (env : Env Analysis) (st : State Analysis)
    file e :
  startsWith (str "image/") (type file) = true ->
  (convertImageToBase64 env file = Rejected e
   \/ exists b, convertImageToBase64 env file = Resolved b
                /\ validateImage env b = Rejected e) ->
  let r := run (handleImageUpload txt clears env (Some file)) st in
  image (fst r) = Some file
  /\ error (fst r) = []
  /\ validationWarning (fst r) = []
  /\ additionalInfo (fst r) = additionalInfo st
  /\ In (ConsoleError e) (snd r)
  /\ (forall b' i', ~ In (AnalyzeCall b' i') (snd r)).
Proof.
  intros Ht Hfail. unfold handleImageUpload. rewrite Ht.
  unfold validateUploadedImage. run_handler.
  destruct Hfail as [Hc | [b [Hc Hv]]].
  - rewrite Hc. destruct clears; simpl; repeat split; auto;
      intros b' i' [H|[]]; discriminate H.
  - rewrite Hc. destruct clears; simpl; rewrite Hv; simpl; repeat split; auto;
      intros b' i' [H|[H|[]]]; discriminate H.
Qed.

(** With an image, no warning and a final check that says valid,
    [handleAnalyze] issues the analysis call. *)
Lemma handleAnalyze_proceeds (env : Env Analysis) (st : State Analysis) f b v :
  image st = Some f ->
  validationWarning st = [] ->
  convertImageToBase64 env f = Resolved b ->
  validateImage env b = Resolved v ->
  isValid v = true ->
  In (AnalyzeCall b (trim (additionalInfo st))) (snd (run (handleAnalyze txt env) st)).
Proof.
  intros Hi Hw Hc Hv Ht. unfold handleAnalyze. run_handler.
  rewrite Hi, Hw. simpl. rewrite Hc. simpl. rewrite Hv. simpl. rewrite Ht. simpl.
  destruct (analyzeImage env b (trim (additionalInfo st))); simpl; auto.
Qed.

End AnalyzerProperties.

(** C6 (fail-closed final checkpoint), for both image analyzers, which
    are [ImageAnalyzer.handleAnalyze] at their own record type and texts.
    When the validation call answers [isValid: false] for an image, no
    run of [handleAnalyze] issues the analysis call for that image; and a
    run that reaches the final check with that image sends the validation
    call only, sets the error text to the validation message followed by
    the line naming the accepted images, keeps the old analysis and ends
    with the loading flag off. *)
Theorem final_check_fail_closed (Analysis : Type) (txt : ImageAnalyzer.Texts)
    (env : ImageAnalyzer.Env Analysis) (b : jsstring) (v : ValidationResult) :
  ImageAnalyzer.validateImage env b = Resolved v ->
  isValid v = false ->
  (forall st info,
      ~ In (ImageAnalyzer.AnalyzeCall b info)
           (snd (run (ImageAnalyzer.handleAnalyze txt env) st)))
  /\ (forall st f,
        ImageAnalyzer.image st = Some f ->
        ImageAnalyzer.validationWarning st = [] ->
        ImageAnalyzer.convertImageToBase64 env f = Resolved b ->
        let r := run (ImageAnalyzer.handleAnalyze txt env) st in
        snd r = [ImageAnalyzer.ValidateCall b]
        /\ ImageAnalyzer.error (fst r) = message v ++ ImageAnalyzer.rejectionSuffix txt
        /\ ImageAnalyzer.analysis (fst r) = ImageAnalyzer.analysis st
        /\ ImageAnalyzer.loading (fst r) = false).
Proof.
  intros Hv Hf. split.
  - intros st info Hin.
    destruct (analyze_call_needs_valid txt env st b info Hin) as [m Hm].
    rewrite Hv in Hm. injection Hm as ->. discriminate Hf.
  - intros st f Hi Hw Hc. cbv zeta.
    rewrite (handleAnalyze_rejects txt env st Hi Hw Hc Hv Hf). simpl. auto.
Qed.

Lemma final_check_fail_closed_witness :
  ((forall st info,
       ~ In (ImageAnalyzer.AnalyzeCall sample_base64 info)
            (snd (run (MedicineAnalyzer.handleAnalyze sample_medicine_env) st)))
   /\ (forall st f,
         ImageAnalyzer.image st = Some f ->
         ImageAnalyzer.validationWarning st = [] ->
         ImageAnalyzer.convertImageToBase64 sample_medicine_env f = Resolved sample_base64 ->
         let r := run (MedicineAnalyzer.handleAnalyze sample_medicine_env) st in
         snd r = [ImageAnalyzer.ValidateCall sample_base64]
         /\ ImageAnalyzer.error (fst r)
            = message sample_invalid ++ ImageAnalyzer.rejectionSuffix MedicineAnalyzer.texts
         /\ ImageAnalyzer.analysis (fst r) = ImageAnalyzer.analysis st
         /\ ImageAnalyzer.loading (fst r) = false))
  /\ ((forall st info,
         ~ In (ImageAnalyzer.AnalyzeCall sample_base64 info)
              (snd (run (MedicalImageAnalyzer.handleAnalyze sample_scan_env) st)))
      /\ (forall st f,
            ImageAnalyzer.image st = Some f ->
            ImageAnalyzer.validationWarning st = [] ->
            ImageAnalyzer.convertImageToBase64 sample_scan_env f = Resolved sample_base64 ->
            let r := run (MedicalImageAnalyzer.handleAnalyze sample_scan_env) st in
            snd r = [ImageAnalyzer.ValidateCall sample_base64]
            /\ ImageAnalyzer.error (fst r)
               = message sample_invalid ++ ImageAnalyzer.rejectionSuffix MedicalImageAnalyzer.texts
            /\ ImageAnalyzer.analysis (fst r) = ImageAnalyzer.analysis st
            /\ ImageAnalyzer.loading (fst r) = false)).
Proof.
  split.
  - apply (final_check_fail_closed MedicineAnalyzer.texts sample_medicine_env
             sample_base64 (v := sample_invalid)); reflexivity.
  - apply (final_check_fail_closed MedicalImageAnalyzer.texts sample_scan_env
             sample_base64 (v := sample_invalid)); reflexivity.
Defined.

(** The rejection of a photo that is no medicine, as the user sees it. *)
Example medicine_rejection_text :
  let st := ImageAnalyzer.mkState (Some sample_file) [] false false None [] [] in
  let r := run (MedicineAnalyzer.handleAnalyze sample_medicine_env) st in
  snd r = [ImageAnalyzer.ValidateCall sample_base64]
  /\ ImageAnalyzer.error (fst r)
     = str "Not a medicine" ++ [10; 10]%N
       ++ str "Please upload a clear image of medicine packaging, tablets, capsules, or medicine bottles.".
Proof. vm_compute. split; reflexivity. Qed.

Section TermExplainerProperties.
Import MedicalTermExplainer.

Lemma handleExplain_validation_fails (env : Env) (st : State) (e : Thrown) :
  truthy (trim (term st)) = true ->
  validateMedicalTerm env (term st) = Rejected e ->
  run (handleExplain env) st
  = (mkState (term st) [] false
       (match e with ErrorObject m => m | NonError => failedText end),
     [ValidateCall (term st)]).
Proof.
  intros Ht Hv. unfold handleExplain. run_handler.
  rewrite Ht. simpl. rewrite Hv. simpl. reflexivity.
Qed.

End TermExplainerProperties.

Section DrugProperties.
Import DrugInteraction.

Lemma addDrug_duplicate (env : Env) (st : State) :
  truthy (trim (currentDrug st)) = true ->
  includes (drugs st) (trim (currentDrug st)) = true ->
  run (addDrug env) st = (setError alreadyAddedText st, []).
Proof.
  intros Ht Hin. unfold addDrug. run_handler. now rewrite Ht, Hin.
Qed.

Lemma addDrug_valid (env : Env) (st : State) :
  truthy (trim (currentDrug st)) = true ->
  includes (drugs st) (trim (currentDrug st)) = false ->
  validateMedicationName env (trim (currentDrug st)) = Resolved true ->
  run (addDrug env) st
  = (mkState (drugs st ++ [trim (currentDrug st)]) [] (analysis st) (loading st) [] false,
     [ValidateCall (trim (currentDrug st))]).
Proof.
  intros Ht Hin Hv. unfold addDrug. run_handler.
  rewrite Ht, Hin. simpl. rewrite Hv. reflexivity.
Qed.

Lemma addDrug_calls_validation (env : Env) (st : State) :
  truthy (trim (currentDrug st)) = true ->
  includes (drugs st) (trim (currentDrug st)) = false ->
  snd (run (addDrug env) st) = [ValidateCall (trim (currentDrug st))].
Proof.
  intros Ht Hin. unfold addDrug. run_handler.
  rewrite Ht, Hin. simpl.
  destruct (validateMedicationName env (trim (currentDrug st))) as [[|]|]; reflexivity.
Qed.

Lemma addDrug_validation_fails (env : Env) (st : State) (e : Thrown) :
  truthy (trim (currentDrug st)) = true ->
  includes (drugs st) (trim (currentDrug st)) = false ->
  validateMedicationName env (trim (currentDrug st)) = Rejected e ->
  run (addDrug env) st
  = (mkState (drugs st) (currentDrug st) (analysis st) (loading st)
       validationFailedText false,
     [ValidateCall (trim (currentDrug st))]).
Proof.
  intros Ht Hin Hv. unfold addDrug. run_handler.
  rewrite Ht, Hin. simpl. rewrite Hv. reflexivity.
Qed.

Lemma occurrences_absent (x : jsstring) (l : list jsstring) :
  includes l x = false -> occurrences x l = 0%nat.
Proof.
  unfold includes, occurrences. induction l as [|y l IH]; simpl; [reflexivity|].
  intros H. apply orb_false_iff in H as [Hy Hl]. rewrite Hy. now apply IH.
Qed.

Lemma occurrences_app (x : jsstring) (l1 l2 : list jsstring) :
  occurrences x (l1 ++ l2) = (occurrences x l1 + occurrences x l2)%nat.
Proof. unfold occurrences. now rewrite filter_app, length_app. Qed.

End DrugProperties.

(** C7 (validation failure at the first check), as the code has it.
    In the two image analyzers the check made at upload is fail-open: if
    the FileReader or the validation call rejects, the failure goes to
    [console.error], no error and no warning is set, and a later
    [handleAnalyze] whose final check says valid issues the analysis
    call.  In the term explainer and in the medication collection the
    one validation call sits in the handler's [try] block: its rejection
    is caught, shown as the error text, and nothing beyond the validation
    call is sent. *)
Theorem precheck_failure_policy :
  (forall (Analysis : Type) (txt : ImageAnalyzer.Texts) (clears : bool)
          (env : ImageAnalyzer.Env Analysis) (st : ImageAnalyzer.State Analysis)
          (file : ImageAnalyzer.File) (e : Thrown),
      startsWith (str "image/") (ImageAnalyzer.type file) = true ->
      (ImageAnalyzer.convertImageToBase64 env file = Rejected e
       \/ exists b, ImageAnalyzer.convertImageToBase64 env file = Resolved b
                    /\ ImageAnalyzer.validateImage env b = Rejected e) ->
      let r := run (ImageAnalyzer.handleImageUpload txt clears env (Some file)) st in
      ImageAnalyzer.error (fst r) = []
      /\ ImageAnalyzer.validationWarning (fst r) = []
      /\ In (ImageAnalyzer.ConsoleError e) (snd r)
      /\ (forall b' i', ~ In (ImageAnalyzer.AnalyzeCall b' i') (snd r))
      /\ (forall (env2 : ImageAnalyzer.Env Analysis) b2 v,
            ImageAnalyzer.convertImageToBase64 env2 file = Resolved b2 ->
            ImageAnalyzer.validateImage env2 b2 = Resolved v ->
            isValid v = true ->
            In (ImageAnalyzer.AnalyzeCall b2 (trim (ImageAnalyzer.additionalInfo st)))
               (snd (run (ImageAnalyzer.handleAnalyze txt env2) (fst r)))))
  /\ (forall (env : MedicalTermExplainer.Env) (st : MedicalTermExplainer.State) (e : Thrown),
        truthy (trim (MedicalTermExplainer.term st)) = true ->
        MedicalTermExplainer.validateMedicalTerm env (MedicalTermExplainer.term st) = Rejected e ->
        run (MedicalTermExplainer.handleExplain env) st
        = (MedicalTermExplainer.mkState (MedicalTermExplainer.term st) [] false
             (match e with
              | ErrorObject m => m
              | NonError => MedicalTermExplainer.failedText
              end),
           [MedicalTermExplainer.ValidateCall (MedicalTermExplainer.term st)]))
  /\ (forall (env : DrugInteraction.Env) (st : DrugInteraction.State) (e : Thrown),
        truthy (trim (DrugInteraction.currentDrug st)) = true ->
        includes (DrugInteraction.drugs st) (trim (DrugInteraction.currentDrug st)) = false ->
        DrugInteraction.validateMedicationName env (trim (DrugInteraction.currentDrug st))
        = Rejected e ->
        run (DrugInteraction.addDrug env) st
        = (DrugInteraction.mkState (DrugInteraction.drugs st) (DrugInteraction.currentDrug st)
             (DrugInteraction.analysis st) (DrugInteraction.loading st)
             DrugInteraction.validationFailedText false,
           [DrugInteraction.ValidateCall (trim (DrugInteraction.currentDrug st))])).
Proof.
  split; [|split].
  - intros Analysis txt clears env st file e Ht Hfail. cbv zeta.
    destruct (handleImageUpload_precheck_fails txt clears env st file Ht Hfail)
      as (Hi & He & Hw & Ha & Hlog & Hno).
    repeat split; try assumption.
    intros env2 b2 v Hc Hv Hvalid. rewrite <- Ha.
    now apply (handleAnalyze_proceeds txt env2 _ Hi Hw Hc Hv Hvalid).
  - intros env st e. apply handleExplain_validation_fails.
  - intros env st e. apply addDrug_validation_fails.
Qed.

Lemma precheck_failure_policy_witness :
  (let env := ImageAnalyzer.mkEnv (Analysis := MedicineAnalyzer.MedicineAnalysis)
                (fun _ => Resolved sample_base64)
                (fun _ => Rejected (ErrorObject (str "Failed to fetch")))
                (fun _ _ => Rejected NonError) in
   let st := ImageAnalyzer.mkState None (str "for my father") false false None [] [] in
   let r := run (MedicineAnalyzer.handleImageUpload env (Some sample_file)) st in
   ImageAnalyzer.error (fst r) = []
   /\ ImageAnalyzer.validationWarning (fst r) = []
   /\ In (ImageAnalyzer.ConsoleError (ErrorObject (str "Failed to fetch"))) (snd r))
  /\ (let env := MedicalTermExplainer.mkEnv
                   (fun _ => Rejected (ErrorObject (str "Failed to fetch")))
                   (fun _ => Resolved (str "An imaging technique")) in
      let st := MedicalTermExplainer.mkState (str "MRI") [] false [] in
      run (MedicalTermExplainer.handleExplain env) st
      = (MedicalTermExplainer.mkState (str "MRI") [] false (str "Failed to fetch"),
         [MedicalTermExplainer.ValidateCall (str "MRI")])).
Proof.
  split.
  - cbv zeta.
    destruct (proj1 precheck_failure_policy MedicineAnalyzer.MedicineAnalysis
                MedicineAnalyzer.texts true
                (ImageAnalyzer.mkEnv (Analysis := MedicineAnalyzer.MedicineAnalysis)
                   (fun _ => Resolved sample_base64)
                   (fun _ => Rejected (ErrorObject (str "Failed to fetch")))
                   (fun _ _ => Rejected NonError))
                (ImageAnalyzer.mkState None (str "for my father") false false None [] [])
                sample_file (ErrorObject (str "Failed to fetch")) eq_refl
                (or_intror (ex_intro _ sample_base64 (conj eq_refl eq_refl))))
      as (He & Hw & Hlog & _).
    exact (conj He (conj Hw Hlog)).
  - cbv zeta.
    exact (proj1 (proj2 precheck_failure_policy)
             (MedicalTermExplainer.mkEnv
                (fun _ => Rejected (ErrorObject (str "Failed to fetch")))
                (fun _ => Resolved (str "An imaging technique")))
             (MedicalTermExplainer.mkState (str "MRI") [] false [])
             (ErrorObject (str "Failed to fetch")) eq_refl eq_refl).
Defined.

(** C7, the statement as claimed fails in the term explainer: the
    validation call for "MRI" rejects with a transport error; the term is
    not taken as valid, the explanation call is never sent, and the
    failure is what the user is shown. *)
Lemma term_validation_failure_blocks :
  let env := MedicalTermExplainer.mkEnv
               (fun _ => Rejected (ErrorObject (str "Failed to fetch")))
               (fun _ => Resolved (str "An imaging technique")) in
  let st := MedicalTermExplainer.mkState (str "MRI") [] false [] in
  let r := run (MedicalTermExplainer.handleExplain env) st in
  snd r = [MedicalTermExplainer.ValidateCall (str "MRI")]
  /\ ~ In (MedicalTermExplainer.ExplainCall (str "MRI")) (snd r)
  /\ MedicalTermExplainer.error (fst r) = str "Failed to fetch"
  /\ MedicalTermExplainer.error (fst r) <> []
  /\ MedicalTermExplainer.explanation (fst r) = [].
Proof.
  vm_compute. repeat split; try discriminate.
  intros [H|[]]. discriminate H.
Qed.

Section CollectionProperties.
Import DrugInteraction.

(** C9 (duplicate rejection).  "Aspirin" is added to a collection that
    does not hold it, the validation call answering valid; it is the new
    last entry.  Adding "Aspirin" again, whatever the validation call
    would answer, sends nothing, sets the already-added error and leaves
    the collection as it was, with "Aspirin" in it once. *)
Theorem duplicate_rejection (env1 env2 : Env) (st : State) :
  includes (drugs st) (str "Aspirin") = false ->
  validateMedicationName env1 (str "Aspirin") = Resolved true ->
  let first := typeAndAdd env1 (str "Aspirin") st in
  let second := typeAndAdd env2 (str "Aspirin") (fst first) in
  drugs (fst first) = drugs st ++ [str "Aspirin"]
  /\ snd first = [ValidateCall (str "Aspirin")]
  /\ snd second = []
  /\ error (fst second) = alreadyAddedText
  /\ drugs (fst second) = drugs (fst first)
  /\ occurrences (str "Aspirin") (drugs (fst second)) = 1%nat.
Proof.
  assert (Htrim : trim (str "Aspirin") = str "Aspirin") by reflexivity.
  assert (Htruthy : truthy (str "Aspirin") = true) by reflexivity.
  generalize dependent (str "Aspirin"). intros a Htrim Htruthy Hfresh Hvalid.
  cbv zeta. unfold typeAndAdd.
  rewrite (addDrug_valid env1 (setCurrentDrug a st)); simpl;
    rewrite ?Htrim; try assumption.
  rewrite addDrug_duplicate; simpl; rewrite ?Htrim; try assumption.
  - repeat split. rewrite occurrences_app, (occurrences_absent _ _ Hfresh).
    unfold occurrences. simpl. now rewrite eqb_refl.
  - apply includes_In, in_or_app. right. now left.
Qed.

Lemma duplicate_rejection_witness :
  let env := mkEnv (fun _ => Resolved true) in
  let st := mkState [] [] [] false [] false in
  let first := typeAndAdd env (str "Aspirin") st in
  let second := typeAndAdd env (str "Aspirin") (fst first) in
  drugs (fst first) = drugs st ++ [str "Aspirin"]
  /\ snd first = [ValidateCall (str "Aspirin")]
  /\ snd second = []
  /\ error (fst second) = alreadyAddedText
  /\ drugs (fst second) = drugs (fst first)
  /\ occurrences (str "Aspirin") (drugs (fst second)) = 1%nat.
Proof.
  intros env st.
  apply (duplicate_rejection env env st); reflexivity.
Defined.

(** C10 (the duplicate check is exact).  For a non-empty trimmed
    candidate, [addDrug] rejects it as a duplicate exactly when the very
    same string is in the collection.  A candidate that is not, and so
    any candidate that differs from the entries by the case of a letter
    only, goes to the validation call and, when that answers valid, is
    appended as a further entry. *)
Theorem duplicate_check_is_exact (env : Env) (st : State) (text : jsstring) :
  truthy (trim text) = true ->
  let r := typeAndAdd env text st in
  (In (trim text) (drugs st) ->
     snd r = [] /\ drugs (fst r) = drugs st /\ error (fst r) = alreadyAddedText)
  /\ (~ In (trim text) (drugs st) ->
        snd r = [ValidateCall (trim text)]
        /\ (validateMedicationName env (trim text) = Resolved true ->
              drugs (fst r) = drugs st ++ [trim text])).
Proof.
  intros Ht. cbv zeta. unfold typeAndAdd. split.
  - intros Hin. apply includes_In in Hin.
    rewrite addDrug_duplicate by assumption. auto.
  - intros Hnot.
    assert (Hfresh : includes (drugs st) (trim text) = false).
    { destruct (includes (drugs st) (trim text)) eqn:E; [|reflexivity].
      apply includes_In in E. contradiction. }
    split.
    + now apply (addDrug_calls_validation env (setCurrentDrug text st)).
    + intros Hv. now rewrite (addDrug_valid env (setCurrentDrug text st)).
Qed.

Lemma duplicate_check_is_exact_witness :
  let env := mkEnv (fun _ => Resolved true) in
  let st := mkState [str "Aspirin"] [] [] false [] false in
  let r := typeAndAdd env (str " aspirin ") st in
  (In (trim (str " aspirin ")) (drugs st) ->
     snd r = [] /\ drugs (fst r) = drugs st /\ error (fst r) = alreadyAddedText)
  /\ (~ In (trim (str " aspirin ")) (drugs st) ->
        snd r = [ValidateCall (trim (str " aspirin "))]
        /\ (validateMedicationName env (trim (str " aspirin ")) = Resolved true ->
              drugs (fst r) = drugs st ++ [trim (str " aspirin ")])).
Proof.
  intros env st.
  apply (duplicate_check_is_exact env st (str " aspirin ")); reflexivity.
Defined.

(** "aspirin" after "Aspirin", evaluated. *)
Example aspirin_in_lower_case_is_added :
  let env := mkEnv (fun _ => Resolved true) in
  let st := mkState [str "Aspirin"] [] [] false [] false in
  let r := typeAndAdd env (str "aspirin") st in
  snd r = [ValidateCall (str "aspirin")]
  /\ drugs (fst r) = [str "Aspirin"; str "aspirin"]
  /\ error (fst r) = [].
Proof. vm_compute. repeat split. Qed.

End CollectionProperties.

(** * Further properties of the handlers *)

(** ** [trim] *)

Lemma trimStart_startsClean (s : jsstring) : startsClean (trimStart s).
Proof.
  induction s as [|c s IH]; simpl; [exact I|].
  destruct (isWhiteSpace c) eqn:E; [exact IH | exact E].
Qed.

Lemma trimStart_fixed (s : jsstring) : startsClean s -> trimStart s = s.
Proof. destruct s as [|c s]; simpl; [reflexivity | now intros ->]. Qed.

Lemma trimStart_snoc (l : jsstring) (c : code_unit) :
  isWhiteSpace c = false -> trimStart (l ++ [c]) = trimStart l ++ [c].
Proof.
  intros Hc. induction l as [|x l IH]; simpl.
  - now rewrite Hc.
  - destruct (isWhiteSpace x); [exact IH | reflexivity].
Qed.

Lemma trimEnd_cons (c : code_unit) (r : jsstring) :
  isWhiteSpace c = false -> trimEnd (c :: r) = c :: trimEnd r.
Proof.
  intros Hc. unfold trimEnd. simpl rev.
  rewrite (trimStart_snoc (rev r) c Hc), rev_app_distr. reflexivity.
Qed.

Lemma trimEnd_startsClean (s : jsstring) : startsClean s -> startsClean (trimEnd s).
Proof.
  destruct s as [|c r]; [intros _; exact I|].
  simpl. intros Hc. now rewrite (trimEnd_cons c r Hc).
Qed.

Lemma trimEnd_idempotent (s : jsstring) : trimEnd (trimEnd s) = trimEnd s.
Proof.
  unfold trimEnd. rewrite rev_involutive.
  now rewrite (trimStart_fixed _ (trimStart_startsClean (rev s))).
Qed.

Lemma trim_startsClean (s : jsstring) : startsClean (trim s).
Proof. apply trimEnd_startsClean, trimStart_startsClean. Qed.

Lemma trim_endsClean (s : jsstring) : startsClean (rev (trim s)).
Proof.
  unfold trim, trimEnd. rewrite rev_involutive. apply trimStart_startsClean.
Qed.

Lemma trim_idempotent (s : jsstring) : trim (trim s) = trim s.
Proof.
  unfold trim at 1. rewrite (trimStart_fixed _ (trim_startsClean s)).
  unfold trim. apply trimEnd_idempotent.
Qed.

(** ** The streaming session, further *)
Section ChatExtras.
Import HealthcareChat.
Import ChatControls.

(** X1.  The text of an accepted submission, as it is sent and as it is
    stored in the user message, is the trimmed input: it is not empty,
    neither begins nor ends with white space, and trimming it again
    changes nothing. *)
Theorem submitted_text_is_trimmed (now : nat -> Z) (st : State) :
  isLoading st = false ->
  truthy (trim (input st)) = true ->
  exists st1 started userMessage,
    handleSubmit now st = (st1, Some started)
    /\ nth_error (messages st1) (List.length (messages st)) = Some userMessage
    /\ role userMessage = user
    /\ content userMessage = userText (call started)
    /\ userText (call started) = trim (input st)
    /\ truthy (userText (call started)) = true
    /\ startsClean (userText (call started))
    /\ startsClean (rev (userText (call started)))
    /\ trim (userText (call started)) = userText (call started).
Proof.
  intros Hidle Htext. rewrite (handleSubmit_idle now st Hidle Htext).
  eexists; eexists; eexists. split; [reflexivity|]. simpl.
  rewrite <- app_assoc, nth_error_app2, Nat.sub_diag by lia. simpl.
  split; [reflexivity|]. simpl.
  repeat split; auto using trim_startsClean, trim_endsClean, trim_idempotent.
Qed.

Lemma submitted_text_is_trimmed_witness :
  let st := mkState [] (str "  sore throat  ") false in
  let now := fun _ : nat => 1700000000000%Z in
  exists st1 started userMessage,
    handleSubmit now st = (st1, Some started)
    /\ nth_error (messages st1) (List.length (messages st)) = Some userMessage
    /\ role userMessage = user
    /\ content userMessage = userText (call started)
    /\ userText (call started) = trim (input st)
    /\ truthy (userText (call started)) = true
    /\ startsClean (userText (call started))
    /\ startsClean (rev (userText (call started)))
    /\ trim (userText (call started)) = userText (call started).
Proof.
  intros st now. apply (submitted_text_is_trimmed now st); reflexivity.
Defined.

Lemma streamingNow_cancelled (msg : Message) :
  streamingNow
    (mkMessage (id msg) (role msg)
       (if truthy (content msg) then content msg else cancelledText)
       (timestamp msg) (Some false)) = false.
Proof. reflexivity. Qed.

(** X2.  Cancelling twice is cancelling once. *)
Theorem handleCancel_idempotent (st : State) :
  handleCancel (handleCancel st) = handleCancel st.
Proof.
  unfold handleCancel, setMessages, setIsLoading. simpl. f_equal.
  rewrite map_map. apply map_ext. intros msg.
  destruct (streamingNow msg) eqn:E; [reflexivity | now rewrite E].
Qed.

Lemma onChunk_onChunk (c x : jsstring) (t : Task) (st : State) :
  onChunk x (snd (onChunk c t st)) (fst (onChunk c t st)) = onChunk (c ++ x) t st.
Proof.
  unfold onChunk, setMessages. simpl. rewrite map_map, app_assoc.
  f_equal. f_equal. apply map_ext. intros msg.
  destruct (eqb (id msg) (aiMessageId t)) eqn:E; simpl; now rewrite E.
Qed.

Lemma deliver_after_chunk chunks : forall c t st,
  deliver chunks (snd (onChunk c t st)) (fst (onChunk c t st))
  = onChunk (c ++ List.concat chunks) t st.
Proof.
  induction chunks as [|d chunks IH]; intros c t st.
  - simpl. now rewrite app_nil_r.
  - rewrite deliver_cons, IH, onChunk_onChunk. reflexivity.
Qed.

(** X3.  How the reply is cut into chunks does not matter: after a
    non-empty sequence of chunks the state and the handler's locals are
    those that one chunk with the whole text gives; and delivering two
    sequences one after the other is delivering their concatenation. *)
Theorem chunking_is_immaterial (chunks more : list jsstring) (t : Task) (st : State) :
  chunks <> [] ->
  deliver chunks t st = onChunk (List.concat chunks) t st
  /\ deliver (chunks ++ more) t st
     = deliver more (snd (deliver chunks t st)) (fst (deliver chunks t st)).
Proof.
  intros Hne. split.
  - destruct chunks as [|c chunks]; [contradiction|].
    rewrite deliver_cons. apply deliver_after_chunk.
  - clear Hne. revert t st. induction chunks as [|c chunks IH]; intros t st.
    + reflexivity.
    + simpl app. rewrite !deliver_cons. apply IH.
Qed.

Lemma chunking_is_immaterial_witness :
  let t := mkTask (str "2") [] in
  let st := mkState [mkMessage (str "2") assistant [] 1 (Some true)] [] true in
  deliver [str "Hel"; str "lo"] t st = onChunk (List.concat [str "Hel"; str "lo"]) t st
  /\ deliver ([str "Hel"; str "lo"] ++ [str "!"]) t st
     = deliver [str "!"] (snd (deliver [str "Hel"; str "lo"] t st))
                         (fst (deliver [str "Hel"; str "lo"] t st)).
Proof.
  intros t st. apply (@chunking_is_immaterial [str "Hel"; str "lo"] [str "!"] t st).
  discriminate.
Defined.

Lemma deliver_skeleton chunks : forall t st,
  map skeleton (messages (fst (deliver chunks t st))) = map skeleton (messages st).
Proof.
  induction chunks as [|c chunks IH]; intros t st; [reflexivity|].
  rewrite deliver_cons, IH, onChunk_messages, map_map.
  apply map_ext. intros msg. unfold withChunk.
  now destruct (eqb (id msg) (aiMessageId t)).
Qed.

Lemma onEnd_skeleton t st :
  map skeleton (messages (onEnd t st)) = map skeleton (messages st).
Proof.
  unfold onEnd. simpl. rewrite map_map. apply map_ext. intros msg.
  now destruct (eqb (id msg) (aiMessageId t)).
Qed.

(** X4.  Chunks, the end of the stream and a cancel never add, drop or
    reorder messages, and never change a message's id, role or
    timestamp. *)
Theorem stream_events_keep_skeleton (chunks : list jsstring) (t : Task) (st : State) :
  map skeleton (messages (fst (deliver chunks t st))) = map skeleton (messages st)
  /\ map skeleton (messages (onEnd t st)) = map skeleton (messages st)
  /\ map skeleton (messages (handleCancel st)) = map skeleton (messages st).
Proof.
  split; [apply deliver_skeleton|]. split; [apply onEnd_skeleton|].
  - unfold handleCancel. simpl. rewrite map_map. apply map_ext. intros msg.
    now destruct (streamingNow msg).
Qed.

Lemma map_withChunk_absent t full (l : list Message) :
  (forall m, In m l -> id m <> aiMessageId t) ->
  map (withChunk t full) l = l.
Proof.
  intros H. rewrite <- (map_id l) at 2. apply map_ext_in.
  intros m Hm. unfold withChunk.
  now rewrite (proj2 (eqb_neq _ _) (H m Hm)).
Qed.

Lemma deliver_absent chunks : forall t st,
  (forall m, In m (messages st) -> id m <> aiMessageId t) ->
  messages (fst (deliver chunks t st)) = messages st.
Proof.
  induction chunks as [|c chunks IH]; intros t st H; [reflexivity|].
  rewrite deliver_cons.
  assert (Hm : messages (fst (onChunk c t st)) = messages st).
  { rewrite onChunk_messages. now apply map_withChunk_absent. }
  rewrite IH; [exact Hm|]. rewrite Hm. exact H.
Qed.

(** X5.  A handler whose message is no longer in the transcript (it was
    cut off by an edit or cleared by a new session) is inert while it
    streams and when it ends: the transcript stays as it is.  If its
    stream rejects, the failure notice is still appended. *)
Theorem stale_task_is_inert (now : nat -> Z) (chunks : list jsstring) (t : Task)
    (st : State) :
  (forall m, In m (messages st) -> id m <> aiMessageId t) ->
  messages (fst (deliver chunks t st)) = messages st
  /\ messages (onEnd t st) = messages st
  /\ messages (onThrow now t st)
     = messages st ++ [mkMessage (toString (now 0%nat)) assistant errorText (now 1%nat) None].
Proof.
  intros H. split; [now apply deliver_absent|]. split.
  - unfold onEnd. simpl. rewrite <- (map_id (messages st)) at 2.
    apply map_ext_in. intros m Hm.
    now rewrite (proj2 (eqb_neq _ _) (H m Hm)).
  - rewrite onThrow_messages. f_equal.
    apply forallb_filter_id, forallb_forall. intros m Hm.
    unfold notTask. now rewrite (proj2 (eqb_neq _ _) (H m Hm)).
Qed.

Lemma stale_task_is_inert_witness :
  let now := fun _ : nat => 9%Z in
  let t := mkTask (str "7") (str "Hel") in
  let st := mkState [sample_u1; sample_a1] [] false in
  messages (fst (deliver [str "lo"] t st)) = messages st
  /\ messages (onEnd t st) = messages st
  /\ messages (onThrow now t st)
     = messages st ++ [mkMessage (toString (now 0%nat)) assistant errorText (now 1%nat) None].
Proof.
  intros now t st. apply (stale_task_is_inert now [str "lo"] t st).
  intros m [<- | [<- | []]]; discriminate.
Defined.

Lemma deliver_messages chunks t st :
  messages (fst (deliver chunks t st))
  = match chunks with
    | [] => messages st
    | _ :: _ => map (withChunk t (fullResponse t ++ List.concat chunks)) (messages st)
    end.
Proof.
  destruct chunks as [|c chunks]; [reflexivity|].
  rewrite deliver_cons, deliver_after_chunk.
  apply onChunk_messages.
Qed.

Lemma deliver_task chunks : forall t st,
  snd (deliver chunks t st) = mkTask (aiMessageId t) (fullResponse t ++ List.concat chunks).
Proof.
  induction chunks as [|c chunks IH]; intros t st.
  - simpl. rewrite app_nil_r. now destruct t.
  - rewrite deliver_cons, IH. simpl. now rewrite app_assoc.
Qed.

Lemma deliver_In chunks t st m' :
  In m' (messages (fst (deliver chunks t st))) ->
  id m' = aiMessageId t \/ In m' (messages st).
Proof.
  rewrite deliver_messages. destruct chunks as [|c chunks]; [now right|].
  intros Hin. apply in_map_iff in Hin as [m [<- Hm]]. unfold withChunk.
  destruct (eqb (id m) (aiMessageId t)) eqn:E.
  - left. simpl. now apply eqb_eq.
  - now right.
Qed.

Lemma deliver_input chunks : forall t st,
  input (fst (deliver chunks t st)) = input st.
Proof.
  induction chunks as [|c chunks IH]; intros t st; [reflexivity|].
  rewrite deliver_cons, IH. reflexivity.
Qed.

(** X6.  A stream that runs to its end leaves the session idle: starting
    from a transcript with no streaming message, after the submission,
    any chunks and the end of the sequence the loading flag is off, the
    input is empty, the transcript is two messages longer and no message
    is streaming. *)
Theorem completed_stream_is_idle (now : nat -> Z) (st : State) (chunks : list jsstring) :
  isLoading st = false ->
  truthy (trim (input st)) = true ->
  Forall (fun m => streamingNow m = false) (messages st) ->
  exists st1 started,
    handleSubmit now st = (st1, Some started)
    /\ let streamed := deliver chunks (task started) st1 in
       let done := onEnd (snd streamed) (fst streamed) in
       isLoading done = false
       /\ input done = []
       /\ List.length (messages done) = (List.length (messages st) + 2)%nat
       /\ Forall (fun m => streamingNow m = false) (messages done).
Proof.
  intros Hidle Htext Hquiet.
  rewrite (handleSubmit_idle now st Hidle Htext).
  eexists; eexists. split; [reflexivity|]. simpl task. cbv zeta.
  set (t := mkTask (toString (now 2%nat + 1)) []).
  set (st1 := mkState _ [] true).
  split; [reflexivity|]. split.
  { unfold onEnd. simpl. now rewrite deliver_input. }
  split.
  { rewrite <- (length_map skeleton), onEnd_skeleton, deliver_skeleton.
    rewrite length_map. unfold st1. simpl. rewrite !length_app. simpl. lia. }
  apply Forall_forall. intros m Hin.
  unfold onEnd in Hin. simpl in Hin. apply in_map_iff in Hin as [m' [<- Hm']].
  rewrite deliver_task. simpl aiMessageId.
  destruct (eqb (id m') (toString (now 2%nat + 1))) eqn:E; [reflexivity|].
  apply deliver_In in Hm' as [Hid | Hm'].
  - apply eqb_neq in E. contradiction.
  - unfold st1 in Hm'. simpl in Hm'.
    apply in_app_or in Hm' as [Hm' | [<- | []]].
    + apply in_app_or in Hm' as [Hm' | [<- | []]]; [|reflexivity].
      rewrite Forall_forall in Hquiet. now apply Hquiet.
    + simpl in E. now rewrite eqb_refl in E.
Qed.

Lemma completed_stream_is_idle_witness :
  let now := fun _ : nat => 1700000000000%Z in
  let st := mkState [sample_u1; sample_a1] (str "and at night?") false in
  exists st1 started,
    handleSubmit now st = (st1, Some started)
    /\ let streamed := deliver [str "Dr"; str "ink"] (task started) st1 in
       let done := onEnd (snd streamed) (fst streamed) in
       isLoading done = false
       /\ input done = []
       /\ List.length (messages done) = (List.length (messages st) + 2)%nat
       /\ Forall (fun m => streamingNow m = false) (messages done).
Proof.
  intros now st.
  apply (completed_stream_is_idle now st [str "Dr"; str "ink"]);
    [reflexivity | reflexivity | repeat constructor].
Defined.

Lemma findIndex_none {A} (p : A -> bool) (l : list A) :
  (forall y, In y l -> p y = false) -> findIndex p l = None.
Proof.
  induction l as [|x l IH]; intros H; simpl; [reflexivity|].
  rewrite (H x (or_introl eq_refl)), IH; [reflexivity|].
  intros y Hy. apply H. now right.
Qed.

(** X7.  Saving an edit for an id that no message of the transcript has
    removes nothing and replaces nothing: the transcript gets the
    streaming placeholder appended, the loading flag is set, and the
    request goes out with the new text and the whole transcript as
    history. *)
Theorem edit_of_unknown_id (now : nat -> Z) (messageId newContent : jsstring)
    (st : State) :
  (forall m, In m (messages st) -> id m <> messageId) ->
  let r := handleSaveEditedMessage now messageId newContent st in
  messages (fst r)
  = messages st ++ [mkMessage (toString (now 1%nat)) assistant [] (now 2%nat) (Some true)]
  /\ isLoading (fst r) = true
  /\ userText (call (snd r)) = newContent
  /\ conversationHistory (call (snd r)) = messages st.
Proof.
  intros H. cbv zeta. unfold handleSaveEditedMessage. simpl.
  rewrite findIndex_none.
  - repeat split. apply forallb_filter_id, forallb_forall.
    intros m Hm. now rewrite (proj2 (eqb_neq _ _) (H m Hm)).
  - intros m Hm. apply eqb_neq. now apply H.
Qed.

Lemma edit_of_unknown_id_witness :
  let r := handleSaveEditedMessage sample_now (str "9") (str "Since sunday")
             (mkState sample_transcript [] false) in
  messages (fst r)
  = sample_transcript ++ [mkMessage (toString (sample_now 1%nat)) assistant []
                            (sample_now 2%nat) (Some true)]
  /\ isLoading (fst r) = true
  /\ userText (call (snd r)) = str "Since sunday"
  /\ conversationHistory (call (snd r)) = sample_transcript.
Proof.
  apply (@edit_of_unknown_id sample_now (str "9") (str "Since sunday")
           (mkState sample_transcript [] false)).
  intros m [<- | [<- | [<- | [<- | [<- | []]]]]]; discriminate.
Defined.

Lemma edit_then_stream (now : nat -> Z) (pre post : list Message) (u : Message)
    (newContent inp : jsstring) (busy : bool) (chunks : list jsstring) :
  (forall m, In m pre -> id m <> id u) ->
  (forall m, In m (pre ++ [u]) -> id m <> toString (now 1%nat)) ->
  let r := handleSaveEditedMessage now (id u) newContent
             (mkState (pre ++ u :: post) inp busy) in
  messages (fst (deliver chunks (task (snd r)) (fst r)))
  = (pre ++ [mkMessage (id u) (role u) newContent (now 0%nat) (isStreaming u)])
    ++ [mkMessage (toString (now 1%nat)) assistant (List.concat chunks) (now 2%nat) (Some true)].
Proof.
  intros Hpre Hfresh. cbv zeta.
  rewrite deliver_messages.
  rewrite (edit_truncates now pre post u newContent inp busy Hpre).
  change (pre ++ [?a; ?b]) with (pre ++ [a] ++ [b]). rewrite app_assoc.
  destruct chunks as [|c chunks]; [reflexivity|].
  rewrite map_app, map_withChunk_absent.
  - simpl. unfold withChunk. simpl. now rewrite eqb_refl.
  - simpl. intros m Hm. apply in_app_or in Hm as [Hm | [<- | []]].
    + apply Hfresh. apply in_or_app. now left.
    + simpl. apply (Hfresh u). apply in_or_app. right. now left.
Qed.

(** X8.  An edit whose regeneration runs to its end: the messages before
    the edited one are untouched, the edited message holds the new text,
    and one assistant message follows with the whole reply, not
    streaming; the loading flag is off.  The placeholder's id is taken not
    to occur among the kept messages. *)
Theorem edit_regeneration_completes (now : nat -> Z) (pre post : list Message)
    (u : Message) (newContent inp : jsstring) (busy : bool) (chunks : list jsstring) :
  (forall m, In m pre -> id m <> id u) ->
  (forall m, In m (pre ++ [u]) -> id m <> toString (now 1%nat)) ->
  let r := handleSaveEditedMessage now (id u) newContent
             (mkState (pre ++ u :: post) inp busy) in
  let streamed := deliver chunks (task (snd r)) (fst r) in
  let done := onEnd (snd streamed) (fst streamed) in
  messages done
  = pre ++ [mkMessage (id u) (role u) newContent (now 0%nat) (isStreaming u);
            mkMessage (toString (now 1%nat)) assistant (List.concat chunks)
              (now 2%nat) (Some false)]
  /\ isLoading done = false.
Proof.
  intros Hpre Hfresh. cbv zeta.
  pose proof (edit_then_stream now pre post u newContent inp busy chunks Hpre Hfresh) as Hs.
  cbv zeta in Hs.
  set (r := handleSaveEditedMessage now (id u) newContent _) in *.
  set (streamed := deliver chunks (task (snd r)) (fst r)) in *.
  assert (Ht : aiMessageId (snd streamed) = toString (now 1%nat)).
  { unfold streamed. now rewrite deliver_task. }
  split; [|reflexivity].
  change (messages (onEnd (snd streamed) (fst streamed)))
    with (map (withEnd (snd streamed)) (messages (fst streamed))).
  rewrite Hs, map_app. simpl. unfold withEnd at 2. simpl. rewrite Ht, eqb_refl.
  change (pre ++ [?a; ?b]) with (pre ++ [a] ++ [b]). rewrite app_assoc. f_equal.
  rewrite <- (map_id (pre ++ _)) at 2.
  apply map_ext_in. intros m Hm. unfold withEnd. rewrite Ht.
  assert (Hne : id m <> toString (now 1%nat)).
  { apply in_app_or in Hm as [Hm | [<- | []]].
    - apply Hfresh. apply in_or_app. now left.
    - simpl. apply (Hfresh u). apply in_or_app. right. now left. }
  now rewrite (proj2 (eqb_neq _ _) Hne).
Qed.

Lemma edit_regeneration_completes_witness :
  let r := handleSaveEditedMessage sample_now (id sample_u2) (str "Since sunday")
             (mkState ([sample_u1; sample_a1] ++ sample_u2 :: [sample_a2; sample_u3]) [] false) in
  let streamed := deliver [str "Then "; str "rest"] (task (snd r)) (fst r) in
  let done := onEnd (snd streamed) (fst streamed) in
  messages done
  = [sample_u1; sample_a1]
    ++ [mkMessage (id sample_u2) (role sample_u2) (str "Since sunday") (sample_now 0%nat)
          (isStreaming sample_u2);
        mkMessage (toString (sample_now 1%nat)) assistant
          (List.concat [str "Then "; str "rest"]) (sample_now 2%nat) (Some false)]
  /\ isLoading done = false.
Proof.
  apply (@edit_regeneration_completes sample_now [sample_u1; sample_a1]
           [sample_a2; sample_u3] sample_u2 (str "Since sunday") [] false
           [str "Then "; str "rest"]).
  - intros m [<- | [<- | []]]; discriminate.
  - intros m [<- | [<- | [<- | []]]]; discriminate.
Defined.

(** X9.  An edit whose regeneration fails: whatever part of the reply
    had arrived is dropped with the placeholder, and the transcript is the
    kept messages, the edited message and the failure notice; the loading
    flag is off. *)
Theorem edit_regeneration_fails (now nowE : nat -> Z) (pre post : list Message)
    (u : Message) (newContent inp : jsstring) (busy : bool) (chunks : list jsstring) :
  (forall m, In m pre -> id m <> id u) ->
  (forall m, In m (pre ++ [u]) -> id m <> toString (now 1%nat)) ->
  let r := handleSaveEditedMessage now (id u) newContent
             (mkState (pre ++ u :: post) inp busy) in
  let streamed := deliver chunks (task (snd r)) (fst r) in
  let failed := onThrow nowE (snd streamed) (fst streamed) in
  messages failed
  = pre ++ [mkMessage (id u) (role u) newContent (now 0%nat) (isStreaming u);
            mkMessage (toString (nowE 0%nat)) assistant errorText (nowE 1%nat) None]
  /\ isLoading failed = false.
Proof.
  intros Hpre Hfresh. cbv zeta.
  pose proof (edit_then_stream now pre post u newContent inp busy chunks Hpre Hfresh) as Hs.
  cbv zeta in Hs.
  set (r := handleSaveEditedMessage now (id u) newContent _) in *.
  set (streamed := deliver chunks (task (snd r)) (fst r)) in *.
  assert (Ht : aiMessageId (snd streamed) = toString (now 1%nat)).
  { unfold streamed. now rewrite deliver_task. }
  split; [|reflexivity].
  rewrite onThrow_messages, Hs, filter_app. simpl filter at 2.
  unfold notTask at 2. simpl. rewrite Ht, eqb_refl. simpl. rewrite app_nil_r.
  change (pre ++ [?a; ?b]) with (pre ++ [a] ++ [b]). rewrite app_assoc. f_equal.
  apply forallb_filter_id, forallb_forall. intros m Hm. unfold notTask. rewrite Ht.
  assert (Hne : id m <> toString (now 1%nat)).
  { apply in_app_or in Hm as [Hm | [<- | []]].
    - apply Hfresh. apply in_or_app. now left.
    - simpl. apply (Hfresh u). apply in_or_app. right. now left. }
  now rewrite (proj2 (eqb_neq _ _) Hne).
Qed.

Lemma edit_regeneration_fails_witness :
  let nowE := fun _ : nat => 6000%Z in
  let r := handleSaveEditedMessage sample_now (id sample_u2) (str "Since sunday")
             (mkState ([sample_u1; sample_a1] ++ sample_u2 :: [sample_a2; sample_u3]) [] false) in
  let streamed := deliver [str "Then "] (task (snd r)) (fst r) in
  let failed := onThrow nowE (snd streamed) (fst streamed) in
  messages failed
  = [sample_u1; sample_a1]
    ++ [mkMessage (id sample_u2) (role sample_u2) (str "Since sunday") (sample_now 0%nat)
          (isStreaming sample_u2);
        mkMessage (toString (nowE 0%nat)) assistant errorText (nowE 1%nat) None]
  /\ isLoading failed = false.
Proof.
  intros nowE.
  apply (@edit_regeneration_fails sample_now nowE [sample_u1; sample_a1]
           [sample_a2; sample_u3] sample_u2 (str "Since sunday") [] false [str "Then "]).
  - intros m [<- | [<- | []]]; discriminate.
  - intros m [<- | [<- | [<- | []]]]; discriminate.
Defined.

End ChatExtras.

Section ControlsExtras.
Import HealthcareChat.
Import ChatControls.

(** X10.  Saving from a message bubble starts an edit exactly when the
    message is a user message, nothing is loading and the edited text is
    not blank.  Otherwise the save is a no-op on the bubble and on the
    chat (so no edit runs beside a request in flight).  When it starts,
    the text sent is the trimmed edit and the bubble leaves edit mode. *)
Theorem bubble_save_guard (now : nat -> Z) (message : Message) (b : Bubble) (st : State) :
  let r := handleSave now message b st in
  (snd r <> None
   <-> role message = user /\ isLoading st = false
       /\ truthy (trim (editedContent b)) = true)
  /\ (snd r = None -> r = (b, st, None))
  /\ (forall started, snd r = Some started ->
        userText (call started) = trim (editedContent b)
        /\ trim (userText (call started)) = userText (call started)
        /\ isEditing (fst (fst r)) = false
        /\ snd (fst r)
           = fst (handleSaveEditedMessage now (id message) (trim (editedContent b)) st)).
Proof.
  cbv zeta. unfold handleSave, onSaveEdit.
  destruct (truthy (trim (editedContent b))) eqn:Et;
    destruct (role message) eqn:Er; destruct (isLoading st) eqn:El; simpl;
    (split; [split; [intros H; try (now contradiction H); auto
                    | intros (H1 & H2 & H3); try discriminate]
            | split; [intros H; try discriminate H; reflexivity
                     | intros started H; try discriminate H]]).
  injection H as <-. simpl. auto using trim_idempotent.
Qed.

Lemma onresultLoop_spec results : forall input interim,
  onresultLoop results input interim
  = (input ++ List.concat (map (fun r => transcript r ++ str " ") (filter isFinal results)),
     interim ++ List.concat (map transcript (filter (fun r => negb (isFinal r)) results))).
Proof.
  induction results as [|r results IH]; intros input interim; simpl.
  - now rewrite !app_nil_r.
  - destruct (isFinal r); simpl; rewrite IH, <- !app_assoc; reflexivity.
Qed.

(** X11.  A speech result event keeps what the input held and appends
    to it, in order, every final transcript from [resultIndex] on, each
    followed by one space; the interim text is replaced by the
    concatenation of the transcripts that are not final.  Results before
    [resultIndex] play no part. *)
Theorem onresult_spec (resultIndex : nat) (results : list SpeechResult) (input : jsstring) :
  let fresh := skipn resultIndex results in
  onresult resultIndex results input
  = (input ++ List.concat (map (fun r => transcript r ++ str " ") (filter isFinal fresh)),
     List.concat (map transcript (filter (fun r => negb (isFinal r)) fresh))).
Proof. cbv zeta. unfold onresult. now rewrite onresultLoop_spec. Qed.

(** X12.  [handleNewSession] asks for confirmation exactly when the
    transcript is not empty, and changes the state only on a yes: then
    the transcript and the input are empty and the loading flag is as
    before.  A handler still suspended from the old session then finds
    no message of its own: its chunks leave the transcript empty, and a
    rejection of its stream puts the failure notice into the new
    session. *)
Theorem new_session_reset (confirmed : bool) (st : State) (now : nat -> Z)
    (chunks : list jsstring) (t : Task) :
  let r := handleNewSession confirmed st in
  (snd r = true <-> messages st <> [])
  /\ (fst r <> st -> confirmed = true /\ messages st <> [])
  /\ (confirmed = true -> messages st <> [] ->
        fst r = mkState [] [] (isLoading st)
        /\ messages (fst (deliver chunks t (fst r))) = []
        /\ messages (onThrow now t (fst r))
           = [mkMessage (toString (now 0%nat)) assistant errorText (now 1%nat) None]).
Proof.
  cbv zeta. unfold handleNewSession.
  destruct (messages st) as [|m ms] eqn:Em; simpl.
  - repeat split; congruence.
  - destruct confirmed; simpl.
    + split; [split; [discriminate | reflexivity]|].
      split; [intros _; split; [reflexivity | discriminate]|].
      intros _ _. split; [reflexivity|]. split; [|reflexivity].
      now apply deliver_absent.
    + split; [split; [discriminate | reflexivity]|].
      split; [intros H; now contradiction H | discriminate].
Qed.

End ControlsExtras.

(** ** The medication collection, further *)
Section CollectionExtras.
Import DrugCheck.
Import DrugInteraction.

(** Every run of [addDrug] leaves the collection as it was, or, behind a
    validation call that answered valid for a name not yet in it,
    extended by that name. *)
Lemma addDrug_drugs (env : Env) (st : State) :
  let name := trim (currentDrug st) in
  drugs (fst (run (addDrug env) st)) = drugs st
  \/ (truthy name = true
      /\ includes (drugs st) name = false
      /\ validateMedicationName env name = Resolved true
      /\ run (addDrug env) st
         = (mkState (drugs st ++ [name]) [] (analysis st) (loading st) [] false,
            [ValidateCall name])).
Proof.
  cbv zeta.
  destruct (truthy (trim (currentDrug st))) eqn:Et.
  - destruct (includes (drugs st) (trim (currentDrug st))) eqn:Ei.
    + left. now rewrite addDrug_duplicate.
    + destruct (validateMedicationName env (trim (currentDrug st))) as [[|]|e] eqn:Ev.
      * right. repeat split; try assumption. now apply addDrug_valid.
      * left. unfold addDrug. run_handler. rewrite Et, Ei. simpl. now rewrite Ev.
      * left. now rewrite (addDrug_validation_fails env st Et Ei Ev).
  - left. unfold addDrug. run_handler. now rewrite Et.
Qed.

(** X13.  The collection grows only behind a positive validation: after
    any run of [addDrug] it is unchanged, unless the trimmed input is not
    blank, is not in the collection and the validation call resolved
    with [true]; then the name is appended, the field is emptied and
    exactly that one call was sent. *)
Theorem collection_grows_only_when_valid (env : Env) (st : State) :
  let name := trim (currentDrug st) in
  let r := run (addDrug env) st in
  (drugs (fst r) <> drugs st ->
     truthy name = true
     /\ ~ In name (drugs st)
     /\ validateMedicationName env name = Resolved true
     /\ drugs (fst r) = drugs st ++ [name]
     /\ currentDrug (fst r) = []
     /\ snd r = [ValidateCall name])
  /\ (forall called, In (ValidateCall called) (snd r) ->
        called = name /\ truthy name = true /\ ~ In name (drugs st)).
Proof.
  cbv zeta. split.
  - intros Hch. destruct (addDrug_drugs env st) as [Hsame | (Ht & Hi & Hv & Hrun)];
      [contradiction|].
    rewrite Hrun. simpl. repeat split; try assumption.
    intros Hin. apply includes_In in Hin. congruence.
  - intros called Hin.
    destruct (truthy (trim (currentDrug st))) eqn:Et.
    + destruct (includes (drugs st) (trim (currentDrug st))) eqn:Ei.
      * rewrite addDrug_duplicate in Hin by assumption. destruct Hin.
      * rewrite (addDrug_calls_validation env st Et Ei) in Hin.
        destruct Hin as [H | []]. injection H as <-.
        repeat split. intros Hin. apply includes_In in Hin. congruence.
    + exfalso. revert Hin. unfold addDrug. run_handler. now rewrite Et.
Qed.

Lemma filterIndexNot_past {A} (index : nat) (l : list A) : forall i,
  (index < i)%nat -> filterIndexNot index i l = l.
Proof.
  induction l as [|x l IH]; intros i Hi; simpl; [reflexivity|].
  destruct (Nat.eqb_spec i index); [lia|]. rewrite IH by lia. reflexivity.
Qed.

Lemma filterIndexNot_spec {A} (index : nat) (l : list A) : forall i k,
  index = (i + k)%nat ->
  filterIndexNot index i l = firstn k l ++ skipn (S k) l.
Proof.
  induction l as [|x l IH]; intros i k Hk; simpl.
  - now destruct k.
  - destruct (Nat.eqb_spec i index) as [E | E].
    + assert (k = 0%nat) by lia. subst k. simpl.
      apply filterIndexNot_past. lia.
    + destruct k as [|k]; [lia|]. simpl. f_equal. apply IH. lia.
Qed.

Lemma removeDrug_drugs (index : nat) (st : State) :
  drugs (removeDrug index st) = firstn index (drugs st) ++ skipn (S index) (drugs st).
Proof. unfold removeDrug. simpl. now apply filterIndexNot_spec. Qed.

(** X14.  [removeDrug] drops the entry at the index and nothing else; an
    index past the end drops nothing; any error shown is cleared.
    Removing the entry that a successful [addDrug] has just appended
    gives the collection back. *)
Theorem removeDrug_spec (env : Env) (index : nat) (st : State) :
  drugs (removeDrug index st) = firstn index (drugs st) ++ skipn (S index) (drugs st)
  /\ error (removeDrug index st) = []
  /\ ((index < List.length (drugs st))%nat ->
        S (List.length (drugs (removeDrug index st))) = List.length (drugs st))
  /\ ((List.length (drugs st) <= index)%nat -> drugs (removeDrug index st) = drugs st)
  /\ (drugs (fst (run (addDrug env) st)) <> drugs st ->
        drugs (removeDrug (List.length (drugs st)) (fst (run (addDrug env) st)))
        = drugs st).
Proof.
  split; [apply removeDrug_drugs|]. split; [reflexivity|]. split; [|split].
  - intros Hlt. rewrite removeDrug_drugs, length_app, length_firstn, length_skipn. lia.
  - intros Hge. rewrite removeDrug_drugs, firstn_all2, skipn_all2 by lia.
    apply app_nil_r.
  - intros Hch. destruct (addDrug_drugs env st) as [Hsame | (_ & _ & _ & Hrun)];
      [contradiction|].
    rewrite Hrun, removeDrug_drugs. simpl drugs.
    rewrite firstn_app, firstn_all, Nat.sub_diag. simpl firstn.
    rewrite skipn_all2 by (rewrite length_app; simpl; lia).
    now rewrite !app_nil_r.
Qed.

Lemma NoDup_snoc {A} (l : list A) (x : A) : NoDup l -> ~ In x l -> NoDup (l ++ [x]).
Proof.
  intros Hl Hx. apply NoDup_app; [assumption | repeat constructor; intros [] |].
  intros a Ha [<- | []]. contradiction.
Qed.

Lemma firstn_incl {A} (n : nat) (l : list A) : incl (firstn n l) l.
Proof.
  intros x Hx. rewrite <- (firstn_skipn n l). apply in_or_app. now left.
Qed.

Lemma skipn_incl {A} (n : nat) (l : list A) : incl (skipn n l) l.
Proof.
  intros x Hx. rewrite <- (firstn_skipn n l). apply in_or_app. now right.
Qed.

Lemma NoDup_firstn_skipn {A} (l : list A) : forall i,
  NoDup l -> NoDup (firstn i l ++ skipn (S i) l).
Proof.
  induction l as [|x l IH]; intros i Hnd.
  - destruct i; simpl; constructor.
  - inversion Hnd as [|? ? Hx Hl]; subst. destruct i as [|i]; simpl; [assumption|].
    constructor; [|now apply IH].
    intros Hin. apply Hx. apply in_app_or in Hin as [Hin | Hin].
    + now apply (firstn_incl i l).
    + now apply (skipn_incl (S i) l).
Qed.

(** X15.  Invariant of the collection: if it holds no name twice and
    every entry is a non-blank trimmed string, this is still so after any
    [addDrug], whatever the validation call answers, and after any
    [removeDrug]. *)
Theorem collection_invariant (env : Env) (index : nat) (st : State) :
  NoDup (drugs st) ->
  Forall (fun d => truthy d = true /\ trim d = d) (drugs st) ->
  (NoDup (drugs (fst (run (addDrug env) st)))
   /\ Forall (fun d => truthy d = true /\ trim d = d) (drugs (fst (run (addDrug env) st))))
  /\ (NoDup (drugs (removeDrug index st))
      /\ Forall (fun d => truthy d = true /\ trim d = d) (drugs (removeDrug index st))).
Proof.
  intros Hnd Hall. split.
  - destruct (addDrug_drugs env st) as [-> | (Ht & Hi & _ & Hrun)]; [now split|].
    rewrite Hrun. simpl. split.
    + apply NoDup_snoc; [assumption|]. intros Hin. apply includes_In in Hin. congruence.
    + apply Forall_app. split; [assumption|]. constructor; [|constructor].
      split; [assumption | apply trim_idempotent].
  - rewrite removeDrug_drugs. split; [now apply NoDup_firstn_skipn|].
    apply Forall_app. split.
    + apply (incl_Forall (firstn_incl index (drugs st)) Hall).
    + apply (incl_Forall (skipn_incl (S index) (drugs st)) Hall).
Qed.

Lemma collection_invariant_witness :
  let env := mkEnv (fun _ => Resolved true) in
  let st := mkState [str "Aspirin"] (str " Ibuprofen ") [] false [] false in
  (NoDup (drugs (fst (run (addDrug env) st)))
   /\ Forall (fun d => truthy d = true /\ trim d = d) (drugs (fst (run (addDrug env) st))))
  /\ (NoDup (drugs (removeDrug 0 st))
      /\ Forall (fun d => truthy d = true /\ trim d = d) (drugs (removeDrug 0 st))).
Proof.
  intros env st. apply (collection_invariant env 0 st).
  - repeat constructor. intros [].
  - repeat constructor.
Defined.

(** X16.  Duplicates are recognised up to surrounding white space: once
    a text has been added with a positive validation, any text with the
    same trimmed form is rejected as already added, with no call and no
    change of the collection. *)
Theorem duplicate_modulo_whitespace (env1 env2 : Env) (st : State) (a b : jsstring) :
  truthy (trim a) = true ->
  trim b = trim a ->
  validateMedicationName env1 (trim a) = Resolved true ->
  let first := typeAndAdd env1 a st in
  let second := typeAndAdd env2 b (fst first) in
  In (trim a) (drugs (fst first))
  /\ snd second = []
  /\ drugs (fst second) = drugs (fst first)
  /\ error (fst second) = alreadyAddedText.
Proof.
  intros Ht Hb Hv. cbv zeta.
  assert (Hin : In (trim a) (drugs (fst (typeAndAdd env1 a st)))).
  { unfold typeAndAdd.
    destruct (includes (drugs st) (trim a)) eqn:Ei.
    - rewrite addDrug_duplicate by assumption. simpl. now apply includes_In.
    - rewrite (addDrug_valid env1 (setCurrentDrug a st)) by assumption.
      simpl. apply in_or_app. right. now left. }
  split; [exact Hin|].
  set (st1 := fst (typeAndAdd env1 a st)) in *.
  unfold typeAndAdd.
  rewrite (addDrug_duplicate env2 (setCurrentDrug b st1)); simpl; rewrite ?Hb; auto.
  now apply includes_In.
Qed.

Lemma duplicate_modulo_whitespace_witness :
  let env := mkEnv (fun _ => Resolved true) in
  let st := mkState [] [] [] false [] false in
  let first := typeAndAdd env (str "Aspirin") st in
  let second := typeAndAdd env (str "  Aspirin ") (fst first) in
  In (trim (str "Aspirin")) (drugs (fst first))
  /\ snd second = []
  /\ drugs (fst second) = drugs (fst first)
  /\ error (fst second) = alreadyAddedText.
Proof.
  intros env st.
  apply (@duplicate_modulo_whitespace env env st (str "Aspirin") (str "  Aspirin "));
    reflexivity.
Defined.

(** X17.  [handleCheck] with an empty collection sends nothing and asks
    for a medication.  Otherwise it sends exactly one call with the whole
    collection, leaves the collection alone and ends with the loading
    flag off; the analysis is the reply, or is cleared when the call
    fails, the error then being the failure's message. *)
Theorem handleCheck_spec (env : DrugCheck.Env) (st : State) :
  let r := run (handleCheck env) st in
  (drugs st = [] -> r = (setError noDrugsText st, []))
  /\ (drugs st <> [] ->
        snd r = [CheckCall (drugs st)]
        /\ drugs (fst r) = drugs st
        /\ loading (fst r) = false
        /\ match checkDrugInteraction env (drugs st) with
           | Resolved result => analysis (fst r) = result /\ error (fst r) = []
           | Rejected (ErrorObject m) => analysis (fst r) = [] /\ error (fst r) = m
           | Rejected NonError => analysis (fst r) = [] /\ error (fst r) = checkFailedText
           end).
Proof.
  cbv zeta. unfold handleCheck. run_handler. split.
  - intros Ed. now rewrite Ed.
  - intros Hne. destruct (drugs st) as [|d ds] eqn:Ed; [contradiction|]. simpl.
    destruct (checkDrugInteraction env (d :: ds)) as [result | [m|]]; simpl;
      auto.
Qed.

End CollectionExtras.

(** ** The image analyzers, further *)
Section AnalyzerExtras.
Import ImageAnalyzer.
Variable Analysis : Type.
Variable txt : Texts.

(** X18.  What one run of [handleAnalyze] sends: nothing; or the
    validation call alone; or the validation call and then the analysis
    call, for the same image and with the trimmed context.  A failure on
    the way adds one [console.error] at the end.  So there is never more
    than one call of each kind, and never an analysis call without the
    validation call before it. *)
Theorem handleAnalyze_calls (env : Env Analysis) (st : State Analysis) :
  let log := snd (run (handleAnalyze txt env) st) in
  let info := trim (additionalInfo st) in
  log = []
  \/ (exists e, log = [ConsoleError e])
  \/ (exists b, log = [ValidateCall b])
  \/ (exists b e, log = [ValidateCall b; ConsoleError e])
  \/ (exists b, log = [ValidateCall b; AnalyzeCall b info])
  \/ (exists b e, log = [ValidateCall b; AnalyzeCall b info; ConsoleError e]).
Proof.
  cbv zeta. unfold handleAnalyze. run_handler.
  destruct (image st) as [f|]; simpl; [|now left].
  destruct (truthy (validationWarning st)); simpl; [now left|].
  destruct (convertImageToBase64 env f) as [b|e]; simpl;
    [|right; left; now exists e].
  destruct (validateImage env b) as [[[|] m]|e]; simpl.
  - destruct (analyzeImage env b (trim (additionalInfo st))) as [res|e]; simpl.
    + do 4 right. left. now exists b.
    + do 5 right. now exists b, e.
  - right; right; left. now exists b.
  - do 3 right. left. now exists b, e.
Qed.

(** X19.  What one run of [handleAnalyze] does to the state.  The
    image, the context, the warning and the validating flag are never
    touched, and a loading flag that was off is off at the end.  Either
    the analysis call resolved behind a valid final check, and then the
    analysis is its result and the error is empty; or the analysis shown
    before is kept and the error is one of the four texts: no image,
    blocked by the warning, the rejection, or the failure text. *)
Theorem handleAnalyze_outcome (env : Env Analysis) (st : State Analysis) :
  let st' := fst (run (handleAnalyze txt env) st) in
  image st' = image st
  /\ additionalInfo st' = additionalInfo st
  /\ validationWarning st' = validationWarning st
  /\ validating st' = validating st
  /\ (loading st = false -> loading st' = false)
  /\ ((exists f b v result,
          image st = Some f
          /\ convertImageToBase64 env f = Resolved b
          /\ validateImage env b = Resolved v /\ isValid v = true
          /\ analyzeImage env b (trim (additionalInfo st)) = Resolved result
          /\ analysis st' = Some result /\ error st' = [])
      \/ (analysis st' = analysis st
          /\ (error st' = noImageText txt
              \/ error st' = warningBlocksText txt
              \/ error st' = failedText txt
              \/ exists v, isValid v = false
                           /\ error st' = message v ++ rejectionSuffix txt))).
Proof.
  cbv zeta. unfold handleAnalyze. run_handler.
  destruct (image st) as [f|] eqn:Ei; simpl.
  2:{ rewrite Ei. do 5 (split; [auto|]). right. auto. }
  destruct (truthy (validationWarning st)) eqn:Ew; simpl.
  { rewrite Ei. do 5 (split; [auto|]). right. auto. }
  destruct (convertImageToBase64 env f) as [b|e] eqn:Ec; simpl.
  2:{ rewrite Ei. do 5 (split; [auto|]). right. auto. }
  destruct (validateImage env b) as [[[|] m]|e] eqn:Ev; simpl.
  - destruct (analyzeImage env b (trim (additionalInfo st))) as [res|e] eqn:Ea; simpl;
      rewrite Ei; do 5 (split; [auto|]).
    + left. exists f, b, (mkValidation true m), res. auto 10.
    + right. auto.
  - rewrite Ei. do 5 (split; [auto|]). right. split; [reflexivity|].
    do 3 right. exists (mkValidation false m). auto.
  - rewrite Ei. do 5 (split; [auto|]). right. auto.
Qed.

(** X20.  What an upload does.  It never sends an analysis call and it
    leaves the context and the loading flag alone; a validating flag that
    was off is off at the end.  Without a file, or with a file whose type
    does not begin with [image/], nothing is sent and the image and the
    warning stay (the latter case sets the invalid-file error).  With an
    image file the file becomes the image and the error is cleared; the
    analysis shown is cleared when the component clears on upload, and
    kept otherwise. *)
Theorem handleImageUpload_outcome (clears : bool) (env : Env Analysis)
    (st : State Analysis) (file : option File) :
  let r := run (handleImageUpload txt clears env file) st in
  (forall b i, ~ In (AnalyzeCall b i) (snd r))
  /\ additionalInfo (fst r) = additionalInfo st
  /\ loading (fst r) = loading st
  /\ (validating st = false -> validating (fst r) = false)
  /\ match file with
     | None => r = (st, [])
     | Some f =>
         if startsWith (str "image/") (type f)
         then image (fst r) = Some f
              /\ error (fst r) = []
              /\ analysis (fst r) = (if clears then None else analysis st)
         else r = (setError (invalidFileText txt) st, [])
     end.
Proof.
  cbv zeta. unfold handleImageUpload.
  destruct file as [f|]; [|run_handler; repeat split; auto].
  destruct (startsWith (str "image/") (type f)); [|run_handler; repeat split; auto].
  unfold validateUploadedImage. run_handler.
  destruct (convertImageToBase64 env f) as [b|e]; simpl.
  - destruct (validateImage env b) as [[[|] m]|e]; destruct clears; simpl;
      repeat split; auto;
      intros b' i' H; repeat (destruct H as [H|H]; [discriminate H|]); exact H.
  - destruct clears; simpl; repeat split; auto;
      intros b' i' H; repeat (destruct H as [H|H]; [discriminate H|]); exact H.
Qed.

(** The state an upload ends in when its check resolves. *)
Lemma handleImageUpload_checked (clears : bool) (env : Env Analysis)
    (st : State Analysis) (f : File) b v :
  startsWith (str "image/") (type f) = true ->
  convertImageToBase64 env f = Resolved b ->
  validateImage env b = Resolved v ->
  let st' := fst (run (handleImageUpload txt clears env (Some f)) st) in
  image st' = Some f
  /\ additionalInfo st' = additionalInfo st
  /\ validationWarning st' = (if isValid v then [] else message v).
Proof.
  intros Ht Hc Hv. cbv zeta. unfold handleImageUpload. rewrite Ht.
  unfold validateUploadedImage. run_handler. rewrite Hc. simpl.
  destruct clears; simpl; rewrite Hv; simpl; destruct (isValid v); simpl; auto.
Qed.

(** X21.  An upload whose check answers invalid with a message blocks
    the analysis: the message is kept as the warning, and every later
    [handleAnalyze] sends nothing and shows the blocking text.  If the
    invalid answer carries an empty message there is no warning, and
    [handleAnalyze] goes on to the final check. *)
Theorem invalid_upload_blocks_analysis (clears : bool) (env env2 : Env Analysis)
    (st : State Analysis) (f : File) (b : jsstring) (v : ValidationResult) :
  startsWith (str "image/") (type f) = true ->
  convertImageToBase64 env f = Resolved b ->
  validateImage env b = Resolved v ->
  isValid v = false ->
  let st' := fst (run (handleImageUpload txt clears env (Some f)) st) in
  validationWarning st' = message v
  /\ (truthy (message v) = true ->
        run (handleAnalyze txt env2) st' = (setError (warningBlocksText txt) st', []))
  /\ (message v = [] ->
        forall b2, convertImageToBase64 env2 f = Resolved b2 ->
                   In (ValidateCall b2) (snd (run (handleAnalyze txt env2) st'))).
Proof.
  intros Ht Hc Hv Hf. cbv zeta.
  destruct (handleImageUpload_checked clears env st f Ht Hc Hv) as (Hi & _ & Hw).
  rewrite Hf in Hw.
  set (st' := fst (run (handleImageUpload txt clears env (Some f)) st)) in *.
  split; [exact Hw|]. split.
  - intros Hm. unfold handleAnalyze. run_handler. rewrite Hi, Hw, Hm. reflexivity.
  - intros Hm b2 Hc2. unfold handleAnalyze. run_handler.
    rewrite Hi, Hw, Hm. simpl. rewrite Hc2. simpl.
    destruct (validateImage env2 b2) as [[[|] m]|e]; simpl; auto.
    destruct (analyzeImage env2 b2 (trim (additionalInfo st'))); simpl; auto.
Qed.

End AnalyzerExtras.

Lemma invalid_upload_blocks_analysis_witness :
  let st := ImageAnalyzer.mkState (Analysis := MedicineAnalyzer.MedicineAnalysis)
              None [] false false None [] [] in
  let st' := fst (run (MedicineAnalyzer.handleImageUpload sample_medicine_env
                         (Some sample_file)) st) in
  ImageAnalyzer.validationWarning st' = message sample_invalid
  /\ (truthy (message sample_invalid) = true ->
        run (MedicineAnalyzer.handleAnalyze sample_medicine_env) st'
        = (ImageAnalyzer.setError
             (ImageAnalyzer.warningBlocksText MedicineAnalyzer.texts) st', []))
  /\ (message sample_invalid = [] ->
        forall b2,
          ImageAnalyzer.convertImageToBase64 sample_medicine_env sample_file = Resolved b2 ->
          In (ImageAnalyzer.ValidateCall b2)
             (snd (run (MedicineAnalyzer.handleAnalyze sample_medicine_env) st'))).
Proof.
  intros st.
  apply (@invalid_upload_blocks_analysis MedicineAnalyzer.MedicineAnalysis
           MedicineAnalyzer.texts true sample_medicine_env sample_medicine_env st
           sample_file sample_base64 sample_invalid); reflexivity.
Defined.

(** ** The term explainer, further *)
Section TermExplainerExtras.
Import MedicalTermExplainer.

(** X22.  What one run of [handleExplain] does.  A blank term sends
    nothing and asks for a term.  Otherwise the validation call goes out
    first, with the term as typed, and the run ends with the loading flag
    off; the explanation call goes out only when the validation resolved
    with [true].  The explanation is the reply of that call when it
    resolves; in every other case it is cleared, the error being the
    not-recognized text or the failure's message. *)
Theorem handleExplain_outcome (env : Env) (st : State) :
  let r := run (handleExplain env) st in
  term (fst r) = term st
  /\ (truthy (trim (term st)) = false -> r = (setError emptyTermText st, []))
  /\ (truthy (trim (term st)) = true ->
        loading (fst r) = false
        /\ match validateMedicalTerm env (term st) with
           | Resolved true =>
               snd r = [ValidateCall (term st); ExplainCall (term st)]
               /\ match explainMedicalTerm env (term st) with
                  | Resolved result => explanation (fst r) = result /\ error (fst r) = []
                  | Rejected (ErrorObject m) => explanation (fst r) = [] /\ error (fst r) = m
                  | Rejected NonError => explanation (fst r) = [] /\ error (fst r) = failedText
                  end
           | Resolved false =>
               snd r = [ValidateCall (term st)]
               /\ explanation (fst r) = [] /\ error (fst r) = notRecognizedText
           | Rejected (ErrorObject m) =>
               snd r = [ValidateCall (term st)]
               /\ explanation (fst r) = [] /\ error (fst r) = m
           | Rejected NonError =>
               snd r = [ValidateCall (term st)]
               /\ explanation (fst r) = [] /\ error (fst r) = failedText
           end).
Proof.
  cbv zeta. unfold handleExplain. run_handler.
  destruct (truthy (trim (term st))) eqn:Et; simpl.
  - split; [|split; [discriminate|intros _]].
    + destruct (validateMedicalTerm env (term st)) as [[|]|[m|]]; simpl; auto.
      destruct (explainMedicalTerm env (term st)) as [res|[m|]]; simpl; auto.
    + destruct (validateMedicalTerm env (term st)) as [[|]|[m|]]; simpl; auto.
      destruct (explainMedicalTerm env (term st)) as [res|[m|]]; simpl; auto.
  - split; [reflexivity|]. split; [reflexivity | discriminate].
Qed.

End TermExplainerExtras.

(** ** Login *)
Section LoginExtras.
Import Login.

(** X23.  [handleLogin] sends the credentials only when both fields are
    non-empty, and then exactly as they stand in the fields; with an
    empty field it only shows the fill-both text.  The redirect is
    scheduled exactly when the sign-in call resolved without an error; an
    error reply is shown behind the cross mark. *)
Theorem handleLogin_spec (env : Env) (st : State) :
  let r := run (handleLogin env) st in
  (In (NavigateHomeAfter 1200) (snd r)
   <-> truthy (email st) = true /\ truthy (password st) = true
       /\ signInWithPassword env (email st) (password st) = Resolved None)
  /\ (forall e p, In (SignInWithPassword e p) (snd r) ->
        e = email st /\ p = password st /\ truthy e = true /\ truthy p = true)
  /\ (truthy (email st) = false \/ truthy (password st) = false ->
        r = (setLoginOutput fillBothText st, []))
  /\ (forall m, truthy (email st) = true -> truthy (password st) = true ->
        signInWithPassword env (email st) (password st) = Resolved (Some m) ->
        r = (setLoginOutput (crossMark ++ m) st,
             [SignInWithPassword (email st) (password st)])).
Proof.
  cbv zeta. unfold handleLogin. run_handler.
  destruct (truthy (email st)) eqn:Ee; destruct (truthy (password st)) eqn:Ep; simpl.
  - destruct (signInWithPassword env (email st) (password st)) as [[m|]|e] eqn:Es; simpl.
    + split; [split; [intros [H|[]]; discriminate H | intros (_ & _ & H); discriminate H]|].
      split; [intros e p [H|[]]; injection H as <- <-; auto|].
      split; [intros [H|H]; discriminate H|].
      intros m' _ _ H. injection H as <-. reflexivity.
    + split; [split; [auto | intros _; right; now left]|].
      split; [intros e p [H|[H|[]]]; [injection H as <- <-; auto | discriminate H]|].
      split; [intros [H|H]; discriminate H|].
      intros m' _ _ H. discriminate H.
    + split; [split; [intros [H|[]]; discriminate H | intros (_ & _ & H); discriminate H]|].
      split; [intros e0 p [H|[]]; injection H as <- <-; auto|].
      split; [intros [H|H]; discriminate H|].
      intros m' _ _ H. discriminate H.
  - split; [split; [intros [] | intros (_ & H & _); discriminate H]|].
    split; [intros e p []|]. split; [reflexivity | discriminate].
  - split; [split; [intros [] | intros (H & _); discriminate H]|].
    split; [intros e p []|]. split; [reflexivity | discriminate].
  - split; [split; [intros [] | intros (H & _); discriminate H]|].
    split; [intros e p []|]. split; [reflexivity | discriminate].
Qed.

(** X24.  [handleSignup] sends the sign-up call only when both sign-up
    fields are non-empty; the card is flipped back to the login side
    exactly when that call resolved without an error, and the login
    fields and the login output are never touched. *)
Theorem handleSignup_spec (env : Env) (st : State) :
  let r := run (handleSignup env) st in
  (In (FlipBackAfter 1500) (snd r)
   <-> truthy (signupEmail st) = true /\ truthy (signupPassword st) = true
       /\ signUp env (signupEmail st) (signupPassword st) = Resolved None)
  /\ (forall e p, In (SignUp e p) (snd r) ->
        e = signupEmail st /\ p = signupPassword st
        /\ truthy e = true /\ truthy p = true)
  /\ (forall e p, ~ In (SignInWithPassword e p) (snd r))
  /\ email (fst r) = email st
  /\ password (fst r) = password st
  /\ loginOutput (fst r) = loginOutput st
  /\ isFlipped (fst r) = isFlipped st.
Proof.
  cbv zeta. unfold handleSignup. run_handler.
  destruct (truthy (signupEmail st)) eqn:Ee;
    destruct (truthy (signupPassword st)) eqn:Ep; simpl.
  - destruct (signUp env (signupEmail st) (signupPassword st)) as [[m|]|e] eqn:Es; simpl.
    + split; [split; [intros [H|[]]; discriminate H | intros (_ & _ & H); discriminate H]|].
      split; [intros e p [H|[]]; injection H as <- <-; auto|].
      split; [intros e p [H|[]]; discriminate H | auto].
    + split; [split; [auto | intros _; right; now left]|].
      split; [intros e p [H|[H|[]]]; [injection H as <- <-; auto | discriminate H]|].
      split; [intros e p [H|[H|[]]]; discriminate H | auto].
    + split; [split; [intros [H|[]]; discriminate H | intros (_ & _ & H); discriminate H]|].
      split; [intros e0 p [H|[]]; injection H as <- <-; auto|].
      split; [intros e0 p [H|[]]; discriminate H | auto].
  - split; [split; [intros [] | intros (_ & H & _); discriminate H]|].
    split; [intros e p []|]. split; [intros e p [] | auto].
  - split; [split; [intros [] | intros (H & _); discriminate H]|].
    split; [intros e p []|]. split; [intros e p [] | auto].
  - split; [split; [intros [] | intros (H & _); discriminate H]|].
    split; [intros e p []|]. split; [intros e p [] | auto].
Qed.

End LoginExtras.

(** ** The data URL *)
Section DataUrlExtras.
Import DataUrl.

Lemma split_without (sep : code_unit) (s : jsstring) :
  ~ In sep s -> split sep s = [s].
Proof.
  induction s as [|c s IH]; intros H; simpl; [reflexivity|].
  destruct (N.eqb_spec c sep) as [E | E].
  - exfalso. apply H. now left.
  - rewrite IH; [reflexivity|]. intros Hin. apply H. now right.
Qed.

Lemma split_at_first (sep : code_unit) (h rest : jsstring) :
  ~ In sep h -> split sep (h ++ sep :: rest) = h :: split sep rest.
Proof.
  induction h as [|c h IH]; intros H; simpl.
  - now rewrite N.eqb_refl.
  - destruct (N.eqb_spec c sep) as [E | E].
    + exfalso. apply H. now left.
    + rewrite IH; [reflexivity|]. intros Hin. apply H. now right.
Qed.

(** X25.  The payload that [convertImageToBase64] takes from the data
    URL: for a header without a comma, a comma and a payload without a
    comma it is the payload; a payload with a comma is cut at that comma;
    a result without any comma gives [undefined]. *)
Theorem base64String_spec (header payload rest : jsstring) :
  ~ In 44%N header ->
  ~ In 44%N payload ->
  base64String (header ++ 44%N :: payload) = Some payload
  /\ base64String (header ++ 44%N :: payload ++ 44%N :: rest) = Some payload
  /\ base64String header = None.
Proof.
  intros Hh Hp. unfold base64String.
  pose proof (split_at_first 44%N header payload Hh) as E1.
  pose proof (split_at_first 44%N header (payload ++ 44%N :: rest) Hh) as E2.
  pose proof (split_at_first 44%N payload rest Hp) as E3.
  pose proof (split_without 44%N payload Hp) as E4.
  pose proof (split_without 44%N header Hh) as E5.
  unfold code_unit in *. repeat split.
  - now rewrite E1, E4.
  - now rewrite E2, E3.
  - now rewrite E5.
Qed.

Lemma base64String_spec_witness :
  base64String (str "data:image/png;base64" ++ 44%N :: str "cGhvdG8=") = Some (str "cGhvdG8=")
  /\ base64String (str "data:image/png;base64" ++ 44%N :: str "cGhvdG8=" ++ 44%N :: str "x")
     = Some (str "cGhvdG8=")
  /\ base64String (str "data:image/png;base64") = None.
Proof.
  apply (@base64String_spec (str "data:image/png;base64") (str "cGhvdG8=") (str "x"));
    intros H; repeat (destruct H as [H|H]; [discriminate H|]); exact H.
Defined.

End DataUrlExtras.

(** ** Every way in respects the single flight *)
Section EntryPoints.
Import HealthcareChat.
Import ChatControls.

(** X26.  While a request is loading, no key and no bubble starts
    another one: Enter in the text area, with or without Shift, any other
    key there, a bubble's Save and any key in a bubble's editor leave the
    chat state as it is and send nothing; the bubble changes at most by
    Escape giving up its edit. *)
Theorem loading_blocks_every_entry (now : nat -> Z) (st : State) (key : jsstring)
    (shiftKey : bool) (message : Message) (b : Bubble) :
  isLoading st = true ->
  handleKeyDown key shiftKey now st = (st, None)
  /\ handleSave now message b st = (b, st, None)
  /\ snd (handleBubbleKeyDown key shiftKey now message b st) = None
  /\ snd (fst (handleBubbleKeyDown key shiftKey now message b st)) = st
  /\ (fst (fst (handleBubbleKeyDown key shiftKey now message b st)) = b
      \/ (key = str "Escape"
          /\ fst (fst (handleBubbleKeyDown key shiftKey now message b st))
             = handleCancelEdit message b)).
Proof.
  intros Hbusy.
  assert (Hsave : handleSave now message b st = (b, st, None)).
  { unfold handleSave, onSaveEdit. rewrite Hbusy.
    destruct (role message); simpl; now rewrite andb_false_r. }
  split.
  - unfold handleKeyDown. rewrite (handleSubmit_busy now st Hbusy).
    now destruct (eqb key (str "Enter") && negb shiftKey).
  - split; [exact Hsave|]. unfold handleBubbleKeyDown. rewrite Hsave.
    destruct (eqb key (str "Enter") && negb shiftKey); simpl; auto.
    destruct (eqb key (str "Escape")) eqn:E; simpl; auto.
    repeat split. right. split; [now apply eqb_eq | reflexivity].
Qed.

Lemma loading_blocks_every_entry_witness :
  let now := fun _ : nat => 7000%Z in
  let st := mkState sample_transcript (str "one more") true in
  let b := mkBubble false true (str "Since sunday") in
  handleKeyDown (str "Enter") false now st = (st, None)
  /\ handleSave now sample_u2 b st = (b, st, None)
  /\ snd (handleBubbleKeyDown (str "Enter") false now sample_u2 b st) = None
  /\ snd (fst (handleBubbleKeyDown (str "Enter") false now sample_u2 b st)) = st
  /\ (fst (fst (handleBubbleKeyDown (str "Enter") false now sample_u2 b st)) = b
      \/ (str "Enter" = str "Escape"
          /\ fst (fst (handleBubbleKeyDown (str "Enter") false now sample_u2 b st))
             = handleCancelEdit sample_u2 b)).
Proof.
  intros now st b.
  apply (@loading_blocks_every_entry now st (str "Enter") false sample_u2 b).
  reflexivity.
Defined.

End EntryPoints.
